(** * news-flash: a shallow embedding of [main.py]

    The program is a Flask application with a single route, [GET /summaries].
    On a cache miss the handler asks the Mediastack API for a list of
    articles, downloads every article page, strips the HTML down to text,
    asks Gemini for a summary and answers with one record per article.

    The development has five parts:
    - the program: Python strings and the [str] methods it uses, JSON
      values, the part of a BeautifulSoup tree that [extract_content]
      touches, exceptions, the handler monad and the outside world,
      [NewsSummarizer] and [get_summaries], and a scripted world to run them;
    - the vocabulary of the specification;
    - facts about the string and tree functions and about the runs of the
      methods, the loop and the handler;
    - the properties of the specification (C1 to C10);
    - further properties of the code (X1 to X22);
    - runs in the scripted world. *)

From Stdlib Require Import ZArith NArith List String Floats Lia Bool DecimalString.
From stdpp Require Import gmap strings list fin_maps.

Set Default Proof Using "Type".
#[local] Set Warnings "-register-all".
#[local] Open Scope N_scope.

(* ===================================================================== *)
(** ** Python strings *)
(* ===================================================================== *)

(** A Python [str] is a sequence of Unicode code points. *)
Abbreviation pystr := (list N).

(** String literals of the source are written [py "..."]. *)
Definition py (s : string) : pystr :=
  map (fun a => N.of_nat (Ascii.nat_of_ascii a)) (list_ascii_of_string s).
Arguments py : simpl never.

Definition SPACE : N := 32.
Definition TAB : N := 9.
Definition LF : N := 10.
Definition CR : N := 13.

(** The characters [str.strip()] removes: those for which [str.isspace] holds
    (U+0009..U+000D, U+001C..U+0020, U+0085, U+00A0, U+1680, U+2000..U+200A,
    U+2028, U+2029, U+202F, U+205F, U+3000). *)
Definition isspace (c : N) : bool :=
  ((9 <=? c) && (c <=? 13)) || ((28 <=? c) && (c <=? 32))
  || (c =? 133) || (c =? 160) || (c =? 5760)
  || ((8192 <=? c) && (c <=? 8202))
  || (c =? 8232) || (c =? 8233) || (c =? 8239) || (c =? 8287) || (c =? 12288).

(** The line boundaries of [str.splitlines()]: \n, \v, \f, \r, \x1c, \x1d,
    \x1e, \x85, U+2028 and U+2029 (and the pair \r\n, handled below). *)
Definition is_linebreak (c : N) : bool :=
  ((10 <=? c) && (c <=? 13)) || ((28 <=? c) && (c <=? 30))
  || (c =? 133) || (c =? 8232) || (c =? 8233).

Definition is_space_char (c : N) : bool := c =? SPACE.

Fixpoint lstrip (s : pystr) : pystr :=
  match s with
  | c :: rest => if isspace c then lstrip rest else s
  | [] => []
  end.

Definition rstrip (s : pystr) : pystr := rev (lstrip (rev s)).

(** [s.strip()] *)
Definition strip (s : pystr) : pystr := rstrip (lstrip s).

(** [s.splitlines()]: [cur] is the line being read, most recent character
    first. A boundary closes the line (an empty one too); what follows the
    last boundary is a line only when it is not empty. *)
Fixpoint splitlines_from (cur : pystr) (s : pystr) : list pystr :=
  match s with
  | [] => match cur with [] => [] | _ => [rev cur] end
  | c :: rest =>
      if is_linebreak c then
        rev cur ::
          match rest with
          | d :: rest' =>
              if (c =? CR) && (d =? LF) then splitlines_from [] rest'
              else splitlines_from [] rest
          | [] => splitlines_from [] rest
          end
      else splitlines_from (c :: cur) rest
  end.

Definition splitlines (s : pystr) : list pystr := splitlines_from [] s.

(** Puts a character in front of the first piece. *)
Definition push_front (c : N) (pieces : list pystr) : list pystr :=
  match pieces with
  | p :: ps => (c :: p) :: ps
  | [] => [[c]]
  end.

(** [s.split("  ")]: the pieces of [s] between the occurrences of two
    spaces, found from the left and not overlapping; one piece at least. *)
Fixpoint split_2sp (s : pystr) : list pystr :=
  match s with
  | [] => [[]]
  | c :: rest =>
      match rest with
      | d :: rest' =>
          if is_space_char c && is_space_char d then [] :: split_2sp rest'
          else push_front c (split_2sp rest)
      | [] => [[c]]
      end
  end.

(** [sep.join(pieces)] *)
Fixpoint join (sep : pystr) (pieces : list pystr) : pystr :=
  match pieces with
  | [] => []
  | p :: ps =>
      match ps with
      | [] => p
      | _ :: _ => p ++ sep ++ join sep ps
      end
  end.

(** Truth value of a [str]: non-empty. *)
Definition nonempty (s : pystr) : bool :=
  match s with [] => false | _ :: _ => true end.

(** Lines 61-63 of [main.py]: strip every line, split it at double spaces,
    strip every phrase, drop the empty ones, join with one space. *)
Definition clean_text (text : pystr) : pystr :=
  let lines := map strip (splitlines text) in
  let chunks := flat_map (fun line => map strip (split_2sp line)) lines in
  join (py " ") (List.filter nonempty chunks).

Example clean_text_demo :
  clean_text (py "  Breaking   news " ++ [LF; LF] ++ py " second    line  " ++ [CR; LF])
  = py "Breaking news second line".
Proof. vm_compute. reflexivity. Qed.

Example clean_text_tabs :
  clean_text [97; TAB; TAB; 98] = [97; TAB; TAB; 98].
Proof. vm_compute. reflexivity. Qed.

(* ===================================================================== *)
(** ** JSON values *)
(* ===================================================================== *)

(** What [response.json()] can return, and what the handler builds:
    [None], booleans, integers, floats, strings, lists and dictionaries. *)
Inductive value : Type :=
| VNone
| VBool (b : bool)
| VInt (n : Z)
| VFloat (f : float)
| VStr (s : pystr)
| VList (l : list value)
| VDict (d : gmap pystr value).

(** [bool(v)], the test of [if v:] and [if not v:]. *)
Definition truthy (v : value) : bool :=
  match v with
  | VNone => false
  | VBool b => b
  | VInt n => negb (n =? 0)%Z
  | VFloat f => negb (PrimFloat.eqb f 0%float)
  | VStr s => nonempty s
  | VList l => match l with [] => false | _ :: _ => true end
  | VDict d => match map_to_list d with [] => false | _ :: _ => true end
  end.

Definition is_null (v : value) : bool :=
  match v with VNone => true | _ => false end.

(* ===================================================================== *)
(** ** The BeautifulSoup tree *)
(* ===================================================================== *)

(** The parse tree as far as [extract_content] looks at it: tags with
    their name and contents, the strings [get_text()] returns, and the
    strings it skips (comments, declarations, doctypes). *)
Inductive node : Type :=
| NavigableString (s : pystr)
| Comment (s : pystr)
| Tag (name : pystr) (contents : list node).

(** The contents of the document root. *)
Abbreviation soup := (list node).

(** [for script in soup(names): script.decompose()]: every tag with one of
    the names leaves the tree together with all it contains. *)
Fixpoint decompose_named (names : list pystr) (n : node) : list node :=
  match n with
  | Tag name contents =>
      if bool_decide (name ∈ names) then []
      else [Tag name (flat_map (decompose_named names) contents)]
  | _ => [n]
  end.

Definition decompose_all (names : list pystr) (doc : soup) : soup :=
  flat_map (decompose_named names) doc.

(** [get_text()]: the strings of the tree in document order, concatenated. *)
Fixpoint node_text (n : node) : pystr :=
  match n with
  | NavigableString s => s
  | Comment _ => []
  | Tag _ contents => flat_map node_text contents
  end.

Definition get_text (doc : soup) : pystr := flat_map node_text doc.

(* ===================================================================== *)
(** ** Exceptions *)
(* ===================================================================== *)

(** The exception classes the program tells apart. [RequestException]
    stands for [requests.exceptions.RequestException] and its subclasses
    (connection errors, timeouts, [HTTPError]); the others are classes
    outside that family. All of them derive from [Exception]. *)
Inductive exn : Type :=
| RequestException (msg : pystr)
| AttributeError (msg : pystr)
| TypeError (msg : pystr)
| OtherException (msg : pystr).

Definition is_RequestException (e : exn) : bool :=
  match e with RequestException _ => true | _ => false end.

Definition is_Exception (e : exn) : bool := true.

(** [str(e)] *)
Definition exn_str (e : exn) : pystr :=
  match e with
  | RequestException m | AttributeError m | TypeError m | OtherException m => m
  end.

Inductive result (A : Type) : Type :=
| Ok (a : A)
| Raise (e : exn).
Arguments Ok {A} a.
Arguments Raise {A} e.

(** [obj.get(key, default)]: a dictionary answers, anything else has no
    attribute [get]. *)
Definition py_get (obj : value) (key : pystr) (default : value) : result value :=
  match obj with
  | VDict d => Ok (match d !! key with Some v => v | None => default end)
  | _ => Raise (AttributeError (py "object has no attribute 'get'"))
  end.

(** The elements a [for] loop over [v] visits: the elements of a list,
    the characters of a string, the keys of a dictionary (a key is a string,
    so whichever comes first the loop body fails on it the same way). *)
Definition py_iter (v : value) : result (list value) :=
  match v with
  | VList l => Ok l
  | VStr s => Ok (map (fun c => VStr [c]) s)
  | VDict d => Ok (map (fun kv => VStr (fst kv)) (map_to_list d))
  | _ => Raise (TypeError (py "object is not iterable"))
  end.

(* ===================================================================== *)
(** ** The process state and the outside world *)
(* ===================================================================== *)

(** [_summaries_cache]: a dictionary with the two keys ["timestamp"] and
    ["data"]. [data] is [None] until the first store. *)
Record Cache : Type := {
  timestamp : float;
  data : option (list value)
}.

(** [CACHE_TTL = 40000] *)
Definition CACHE_TTL : float := 40000%float.

Definition initial_cache : Cache := {| timestamp := 0%float; data := None |}.

(** What a run leaves behind, in order: the calls of the three methods of
    [NewsSummarizer], the requests that leave the process, the lines
    printed, and the cache after each assignment to one of its keys. *)
Inductive event : Type :=
| Call_fetch_news
| Call_extract_content (url : value)
| Call_generate_summary (content : pystr)
| Outbound_get (url : value) (params headers : gmap pystr value)
| Outbound_generate (model contents : pystr)
| Print (line : pystr)
| CacheWrite (after : Cache).

(** A [requests.Response]: the status, the body, and what [json()] gives. *)
Record Response : Type := {
  status_code : Z;
  text : pystr;
  json : result value
}.

(** The response of [models.generate_content]; [text] is [None] when the
    model returned no text part. *)
Record GenerateContentResponse : Type := {
  response_text : option pystr
}.

(** What Flask sends back: the body [jsonify] produced and the status. *)
Record HttpResponse : Type := {
  body : pystr;
  status : Z
}.

(** The outside world [W] and the library calls that reach it. Each call
    may answer differently every time, so it takes and returns the world.
    The environment is read, not changed, and [genai.Client(api_key=key)]
    sends nothing: it returns the client or raises, as it does with a
    [ValueError] when there is no key. *)
Class External (W : Type) : Type := {
  time_time : W -> float * W;
  os_getenv : pystr -> value;
  genai_Client : value -> result value;
  requests_get : value -> gmap pystr value -> gmap pystr value -> W -> result Response * W;
  html_parser : pystr -> result soup;
  generate_content : value -> pystr -> pystr -> W -> result GenerateContentResponse * W;
  jsonify : value -> pystr
}.

Record State (W : Type) : Type := {
  world : W;
  _summaries_cache : Cache;
  trace : list event
}.
Arguments world {W} s.
Arguments _summaries_cache {W} s.
Arguments trace {W} s.

(** Computations of the handler: they read and change the state and
    either return or raise; the state survives a raise. *)
Definition M (W : Type) (A : Type) : Type := State W -> result A * State W.

#[global] Instance M_ret {W} : MRet (M W) := fun A a s => (Ok a, s).

#[global] Instance M_bind {W} : MBind (M W) := fun A B k m s =>
  match m s with
  | (Ok a, s') => k a s'
  | (Raise e, s') => (Raise e, s')
  end.

Definition raise {W A} (e : exn) : M W A := fun s => (Raise e, s).

Definition lift {W A} (r : result A) : M W A := fun s => (r, s).

(** [try: body except C as e: handler(e)] where [catches] tells whether an
    exception is an instance of [C]. *)
Definition try_except {W A} (body : M W A) (catches : exn -> bool)
    (handler : exn -> M W A) : M W A := fun s =>
  match body s with
  | (Ok a, s') => (Ok a, s')
  | (Raise e, s') => if catches e then handler e s' else (Raise e, s')
  end.

Definition emit {W} (e : event) : M W unit := fun s =>
  (Ok tt, {| world := world s; _summaries_cache := _summaries_cache s;
             trace := trace s ++ [e] |}).

(** [print(line)] *)
Definition print {W} (line : pystr) : M W unit := emit (Print line).

Definition read_cache {W} : M W Cache := fun s => (Ok (_summaries_cache s), s).

Definition write_cache {W} (c : Cache) : M W unit := fun s =>
  (Ok tt, {| world := world s; _summaries_cache := c;
             trace := trace s ++ [CacheWrite c] |}).

(** [_summaries_cache["timestamp"] = t] *)
Definition set_timestamp {W} (t : float) : M W unit :=
  c ← read_cache; write_cache {| timestamp := t; data := data c |}.

(** [_summaries_cache["data"] = d] *)
Definition set_data {W} (d : list value) : M W unit :=
  c ← read_cache; write_cache {| timestamp := timestamp c; data := Some d |}.

Section Program.
Context {W : Type} `{External W}.

(** A library call that reaches the world. *)
Definition with_world {A} (f : W -> A * W) : M W A := fun s =>
  let (a, w) := f (world s) in
  (Ok a, {| world := w; _summaries_cache := _summaries_cache s; trace := trace s |}).

Definition call_world {A} (f : W -> result A * W) : M W A := fun s =>
  let (r, w) := f (world s) in
  (r, {| world := w; _summaries_cache := _summaries_cache s; trace := trace s |}).

(** [time.time()] *)
Definition now_ : M W float := with_world time_time.

(** [requests.get(url, params=params, headers=headers)] *)
Definition get_ (url : value) (params headers : gmap pystr value) : M W Response :=
  emit (Outbound_get url params headers);;
  call_world (requests_get url params headers).

(** [response.raise_for_status()]: [HTTPError], a [RequestException], for
    the statuses 400 to 599. *)
Definition raise_for_status (response : Response) : M W unit :=
  if ((400 <=? status_code response) && (status_code response <? 600))%Z
  then raise (RequestException (py "HTTPError"))
  else mret tt.

(** [client.models.generate_content(model=model, contents=contents)] *)
Definition generate_content_ (client : value) (model contents : pystr)
  : M W GenerateContentResponse :=
  emit (Outbound_generate model contents);;
  call_world (generate_content client model contents).

(* ===================================================================== *)
(** ** [class NewsSummarizer] *)
(* ===================================================================== *)

(** The attributes [__init__] sets. *)
Record NewsSummarizer : Type := {
  mediastack_url : pystr;
  mediastack_params : gmap pystr value;
  gemini_client : value
}.

(** [NewsSummarizer()], lines 20-27: the last statement builds the Gemini
    client, and when [genai.Client] raises there is no object. *)
Definition NewsSummarizer_init : result NewsSummarizer :=
  match genai_Client (os_getenv (py "GEMINI_API_KEY")) with
  | Ok client =>
      Ok {| mediastack_url := py "http://api.mediastack.com/v1/news";
            mediastack_params :=
              <[py "access_key" := os_getenv (py "MEDIASTACK_API_KEY")]>
                (<[py "countries" := VStr (py "in")]> ∅);
            gemini_client := client |}
  | Raise e => Raise e
  end.

Definition fetch_news (self : NewsSummarizer) : M W value :=
  emit Call_fetch_news;;
  try_except
    (response ← get_ (VStr (mediastack_url self)) (mediastack_params self) ∅;
     raise_for_status response;;
     data ← lift (json response);
     lift (py_get data (py "data") (VList [])))
    is_RequestException
    (fun e => print (py "Error fetching news: " ++ exn_str e);; mret (VList [])).

Definition USER_AGENT : pystr :=
  py "Mozilla/5.0 (Windows NT 10.0; Win64; x64) AppleWebKit/537.36 (KHTML, like Gecko) Chrome/91.0.4472.124 Safari/537.36".

Definition extract_content (self : NewsSummarizer) (url : value) : M W pystr :=
  emit (Call_extract_content url);;
  try_except
    (let headers : gmap pystr value := <[py "User-Agent" := VStr USER_AGENT]> ∅ in
     response ← get_ url ∅ headers;
     raise_for_status response;;
     doc ← lift (html_parser (text response));
     let doc := decompose_all [py "script"; py "style"; py "a"] doc in
     let text := get_text doc in
     mret (clean_text text))
    is_Exception
    (fun e => print (py "Error extracting content: " ++ exn_str e);; mret []).

(** The f-string of [generate_summary]. *)
Definition summary_prompt (content : pystr) : pystr :=
  [LF] ++ py "            Summarize the following article in exactly 60 words or less, maintaining key information:"
  ++ [LF; LF] ++ py "            " ++ content ++ [LF] ++ py "            ".

Definition generate_summary (self : NewsSummarizer) (content : pystr) : M W pystr :=
  emit (Call_generate_summary content);;
  try_except
    (let prompt := summary_prompt content in
     response ← generate_content_ (gemini_client self) (py "gemini-2.0-flash") prompt;
     match response_text response with
     | Some t => mret (strip t)
     | None => raise (AttributeError (py "'NoneType' object has no attribute 'strip'"))
     end)
    is_Exception
    (fun e => print (py "Error generating summary: " ++ exn_str e);; mret []).

(* ===================================================================== *)
(** ** [get_summaries] *)
(* ===================================================================== *)

(** The body of the loop, lines 113-136, up to [results.append]. *)
Definition summarize_article (summarizer : NewsSummarizer) (article : value) : M W value :=
  title ← lift (py_get article (py "title") (VStr (py "N/A")));
  source ← lift (py_get article (py "source") (VStr (py "N/A")));
  url_shown ← lift (py_get article (py "url") (VStr (py "N/A")));
  published ← lift (py_get article (py "published_at") (VStr (py "N/A")));
  let summary_data : gmap pystr value :=
    <[py "error" := VNone]> (<[py "summary" := VNone]>
    (<[py "published" := published]> (<[py "url" := url_shown]>
    (<[py "source" := source]> (<[py "title" := title]> ∅))))) in
  url ← lift (py_get article (py "url") VNone);
  if truthy url then
    content ← extract_content summarizer url;
    if nonempty content then
      summary ← generate_summary summarizer content;
      if nonempty summary then
        mret (VDict (<[py "summary" := VStr summary]> summary_data))
      else
        mret (VDict (<[py "error" := VStr (py "Could not generate summary.")]> summary_data))
    else
      mret (VDict (<[py "error" := VStr (py "Could not extract article content.")]> summary_data))
  else
    mret (VDict (<[py "error" := VStr (py "No URL available for article.")]> summary_data)).

(** [for article in articles: ...; results.append(summary_data)] *)
Fixpoint for_articles (summarizer : NewsSummarizer) (articles : list value)
    (results : list value) : M W (list value) :=
  match articles with
  | [] => mret results
  | article :: rest =>
      summary_data ← summarize_article summarizer article;
      for_articles summarizer rest (results ++ [summary_data])
  end.

(** The test of line 102. *)
Definition is_fresh (c : Cache) (now : float) : bool :=
  match data c with
  | Some _ => PrimFloat.ltb (PrimFloat.sub now (timestamp c)) CACHE_TTL
  | None => false
  end.

Definition NO_ARTICLES : value :=
  VDict (<[py "message" := VStr (py "No articles found.")]> ∅).

(** Lines 105-140: the path of a request the cache cannot answer. *)
Definition refresh : M W HttpResponse :=
  summarizer ← lift NewsSummarizer_init;
  articles ← fetch_news summarizer;
  if negb (truthy articles) then
    mret {| body := jsonify NO_ARTICLES; status := 404 |}
  else
    items ← lift (py_iter articles);
    results ← for_articles summarizer items [];
    t ← now_;
    set_timestamp t;;
    set_data results;;
    mret {| body := jsonify (VList results); status := 200 |}.

Definition get_summaries : M W HttpResponse :=
  now ← now_;
  cache ← read_cache;
  match data cache with
  | Some stored =>
      if PrimFloat.ltb (PrimFloat.sub now (timestamp cache)) CACHE_TTL
      then mret {| body := jsonify (VList stored); status := 200 |}
      else refresh
  | None => refresh
  end.

End Program.

(* ===================================================================== *)
(** ** [format_article] and [main] *)
(* ===================================================================== *)

(** [str(v)] for the values whose text the interpreter fixes in a few
    words is written out; for floats, lists and dictionaries it is the
    interpreter's [repr], taken as given. *)
Class Interpreter : Type := {
  repr_other : value → pystr
}.

Definition py_str `{Interpreter} (v : value) : pystr :=
  match v with
  | VStr s => s
  | VNone => py "None"
  | VBool true => py "True"
  | VBool false => py "False"
  | VInt n => py (NilEmpty.string_of_int (Z.to_int n))
  | _ => repr_other v
  end.

#[global] Instance result_ret : MRet result := fun A a => Ok a.

#[global] Instance result_bind : MBind result := fun A B k r =>
  match r with
  | Ok a => k a
  | Raise e => Raise e
  end.

(** The f-string of [format_article]. *)
Definition article_text (title source url published : pystr) : pystr :=
  [LF] ++ py "Title: " ++ title ++ [LF]
  ++ py "Source: " ++ source ++ [LF]
  ++ py "URL: " ++ url ++ [LF]
  ++ py "Published: " ++ published ++ [LF].

Definition format_article `{Interpreter} (self : NewsSummarizer) (article : value)
  : result pystr :=
  title ← py_get article (py "title") (VStr (py "N/A"));
  source ← py_get article (py "source") (VStr (py "N/A"));
  url ← py_get article (py "url") (VStr (py "N/A"));
  published ← py_get article (py "published_at") (VStr (py "N/A"));
  mret (article_text (py_str title) (py_str source) (py_str url) (py_str published)).

Section Script.
Context {W : Type} `{External W} `{Interpreter}.

(** ["\n" + "="*50] *)
Definition RULE : pystr := [LF] ++ repeat 61 50.

(** The body of the loop of [main], lines 157-176. *)
Definition main_article (summarizer : NewsSummarizer) (article : value) : M W unit :=
  print RULE;;
  shown ← lift (format_article summarizer article);
  print shown;;
  url ← lift (py_get article (py "url") VNone);
  if truthy url then
    print (py "Extracting content...");;
    content ← extract_content summarizer url;
    if nonempty content then
      print (py "Generating summary...");;
      summary ← generate_summary summarizer content;
      if nonempty summary then
        print (py "Summary: " ++ summary)
      else
        print (py "Could not generate summary.")
    else
      print (py "Could not extract article content.")
  else
    print (py "No URL available for article.").

Fixpoint main_loop (summarizer : NewsSummarizer) (articles : list value) : M W unit :=
  match articles with
  | [] => mret tt
  | article :: rest =>
      main_article summarizer article;;
      main_loop summarizer rest
  end.

Definition main : M W unit :=
  summarizer ← lift NewsSummarizer_init;
  print (py "Fetching news articles...");;
  articles ← fetch_news summarizer;
  if negb (truthy articles) then
    print (py "No articles found.")
  else
    items ← lift (py_iter articles);
    main_loop summarizer items.

End Script.

(* ===================================================================== *)
(** ** A scripted world, to run the program *)
(* ===================================================================== *)

(** The clock readings and the answers of the two services, in the order
    in which they will be asked for. *)
Record Script : Type := {
  clock : list float;
  http : list (result Response);
  gemini : list (result GenerateContentResponse)
}.

Definition script_time (w : Script) : float * Script :=
  match clock w with
  | t :: rest => (t, {| clock := rest; http := http w; gemini := gemini w |})
  | [] => (0%float, w)
  end.

Definition script_get (w : Script) : result Response * Script :=
  match http w with
  | r :: rest => (r, {| clock := clock w; http := rest; gemini := gemini w |})
  | [] => (Raise (RequestException (py "ConnectionError")), w)
  end.

Definition script_generate (w : Script) : result GenerateContentResponse * Script :=
  match gemini w with
  | r :: rest => (r, {| clock := clock w; http := http w; gemini := rest |})
  | [] => (Raise (OtherException (py "ServerError")), w)
  end.

(** A stand-in for the parser: the page is a script, a paragraph holding
    the body, and a link. *)
Definition script_parser (page : pystr) : result soup :=
  Ok [Tag (py "html")
        [Tag (py "script") [NavigableString (py "var x = 1;")];
         Tag (py "p") [NavigableString page];
         Tag (py "a") [NavigableString (py "read more")]]].

Definition show_scalar (v : value) : pystr :=
  match v with
  | VNone => py "null"
  | VStr s => s
  | _ => py "?"
  end.

Definition show_object (v : value) : pystr :=
  match v with
  | VDict d =>
      py "{" ++ join (py ",") (map (fun kv => fst kv ++ py ":" ++ show_scalar (snd kv))
                                   (map_to_list d)) ++ py "}"
  | _ => show_scalar v
  end.

(** A stand-in for [jsonify]. *)
Definition script_jsonify (v : value) : pystr :=
  match v with
  | VList l => py "[" ++ join (py ",") (map show_object l) ++ py "]"
  | _ => show_object v
  end.

(** A stand-in for [genai.Client]: the client is known by its key, and
    without a key there is none. *)
Definition script_client (api_key : value) : result value :=
  if truthy api_key then Ok api_key
  else Raise (OtherException (py "Missing key inputs argument!")).

(** The scripted world with both keys in the environment. *)
#[global] Instance Script_External : External Script := {|
  time_time := script_time;
  os_getenv := fun _ => VStr (py "key");
  genai_Client := script_client;
  requests_get := fun _ _ _ => script_get;
  html_parser := script_parser;
  generate_content := fun _ _ _ => script_generate;
  jsonify := script_jsonify
|}.


(** The object [NewsSummarizer()] builds in the scripted world. *)
Definition scripted_summarizer : NewsSummarizer := {|
  mediastack_url := py "http://api.mediastack.com/v1/news";
  mediastack_params :=
    <[py "access_key" := VStr (py "key")]> (<[py "countries" := VStr (py "in")]> ∅);
  gemini_client := VStr (py "key")
|}.

Definition start (w : Script) : State Script :=
  {| world := w; _summaries_cache := initial_cache; trace := [] |}.

Definition page (status : Z) (content : pystr) : result Response :=
  Ok {| status_code := status; text := content;
        json := Raise (RequestException (py "JSONDecodeError")) |}.

Definition api (status : Z) (answer : value) : result Response :=
  Ok {| status_code := status; text := []; json := Ok answer |}.

Definition said (t : pystr) : result GenerateContentResponse :=
  Ok {| response_text := Some t |}.

Definition article_dict (url : value) : gmap pystr value :=
  <[py "url" := url]> (<[py "title" := VStr (py "T")]> ∅).

Definition article (url : value) : value := VDict (article_dict url).

(** One article with a page and a summary. *)
Definition one_article_world : Script := {|
  clock := [100%float; 101%float; 200%float];
  http := [api 200 (VDict (<[py "data" := VList [article (VStr (py "http://x"))]]> ∅));
           page 200 (py "  some   text ")];
  gemini := [said (py " X ")]
|}.

Definition news (articles : list value) : result Response :=
  api 200 (VDict (<[py "data" := VList articles]> ∅)).

(** The news API answers with no article. *)
Definition no_news_world : Script := {|
  clock := [100%float];
  http := [news []];
  gemini := []
|}.

(** The news API answers 200 with a JSON array instead of an object. *)
Definition array_answer_world : Script := {|
  clock := [100%float];
  http := [api 200 (VList [])];
  gemini := []
|}.

(** A page whose text has two tabs between two letters. *)
Definition tab_world : Script := {|
  clock := [];
  http := [page 200 [97; TAB; TAB; 98]];
  gemini := []
|}.

(** Two requests more than the TTL apart, each finding one article. *)
Definition two_refresh_world : Script := {|
  clock := [100%float; 101%float; 50000%float; 50001%float];
  http := [news [article (VStr (py "http://x"))]; page 200 (py "first");
           news [article (VStr (py "http://y"))]; page 200 (py "second")];
  gemini := [said (py "X"); said (py "Y")]
|}.

(** The state the first request leaves behind. *)
Definition warm (w : Script) : State Script := snd (get_summaries (start w)).

(** A page of two lines with runs of spaces. *)
Definition page_text : pystr :=
  py "  Breaking   news " ++ [LF; LF] ++ py " second    line  " ++ [CR; LF].

Definition page_world : Script := {|
  clock := [];
  http := [page 200 page_text];
  gemini := []
|}.

(** The second request of [two_refresh_world], made in the state the first
    one left. *)
Definition second_request : result HttpResponse * State Script :=
  get_summaries (warm two_refresh_world).

(** A stand-in for the interpreter's [repr]. *)
#[global] Instance Script_Interpreter : Interpreter := {|
  repr_other := fun _ => py "?"
|}.

(** The page is not found. *)
Definition missing_page_world : Script := {|
  clock := [];
  http := [page 404 (py "Not Found")];
  gemini := []
|}.

(** The page holds white space only. *)
Definition blank_page_world : Script := {|
  clock := [];
  http := [page 200 (py "   " ++ [LF; TAB])];
  gemini := []
|}.

(** The model answers with white space only. *)
Definition blank_answer_world : Script := {|
  clock := [];
  http := [];
  gemini := [said (py "  " ++ [LF])]
|}.

(** Nothing answers. *)
Definition offline_world : Script := {|
  clock := [100%float];
  http := [];
  gemini := []
|}.

(** The second of two articles is a string. *)
Definition string_article_world : Script := {|
  clock := [100%float; 101%float];
  http := [news [article (VStr (py "http://x")); VStr (py "oops")];
           page 200 (py "some text")];
  gemini := [said (py "X")]
|}.

(** ['data'] is a string. *)
Definition string_data_world : Script := {|
  clock := [100%float];
  http := [api 200 (VDict (<[py "data" := VStr (py "abc")]> ∅))];
  gemini := []
|}.


Definition url_x : value := VStr (py "http://x").

(** A page with text and an answer with white space around it. *)
Definition padded_answer_world : Script := {|
  clock := [];
  http := [page 200 (py "  some   text ")];
  gemini := [said (py " X ")]
|}.

(* ===================================================================== *)
(** ** The vocabulary of the specification *)
(* ===================================================================== *)

(** Two neighbouring characters both satisfy [p]. *)
Fixpoint has_adjacent (p : N -> bool) (s : pystr) : bool :=
  match s with
  | c :: rest =>
      match rest with
      | d :: _ => (p c && p d) || has_adjacent p rest
      | [] => false
      end
  | [] => false
  end.

Definition starts_with_space (s : pystr) : bool :=
  match s with c :: _ => isspace c | [] => false end.

Definition ends_with_space (s : pystr) : bool := starts_with_space (rev s).

Definition head_sat (p : N → bool) (s : pystr) : bool :=
  match s with c :: _ => p c | [] => false end.

(** A chunk that survives the filter of line 63. *)
Definition chunk_ok (c : pystr) : Prop :=
  c ≠ [] ∧ starts_with_space c = false ∧ ends_with_space c = false
  ∧ has_adjacent is_space_char c = false.

(** The text of a document as the specification words it: the strings
    that lie in no element with one of the names. *)
Fixpoint text_outside (names : list pystr) (n : node) : pystr :=
  match n with
  | NavigableString s => s
  | Comment _ => []
  | Tag name contents =>
      if bool_decide (name ∈ names) then []
      else flat_map (text_outside names) contents
  end.

Definition document_text_without (names : list pystr) (doc : soup) : pystr :=
  flat_map (text_outside names) doc.

Definition is_fetch_call (e : event) : bool :=
  match e with Call_fetch_news => true | _ => false end.

Definition is_extract_call (e : event) : bool :=
  match e with Call_extract_content _ => true | _ => false end.

Definition is_summarize_call (e : event) : bool :=
  match e with Call_generate_summary _ => true | _ => false end.

Definition is_outbound (e : event) : bool :=
  match e with Outbound_get _ _ _ | Outbound_generate _ _ => true | _ => false end.

Definition is_cache_write (e : event) : bool :=
  match e with CacheWrite _ => true | _ => false end.

Definition is_print (e : event) : bool :=
  match e with Print _ => true | _ => false end.

Definition count (p : event → bool) (l : list event) : nat :=
  length (List.filter p l).

(** What the processing of one article may add to the trace: no call of
    the fetcher, at most one of the extractor, a call of the summarizer only
    after one of the extractor, one outbound request per call, and no
    assignment to the cache. *)
Definition segment_ok (seg : list event) : Prop :=
  count is_fetch_call seg = 0%nat
  ∧ (count is_extract_call seg ≤ 1)%nat
  ∧ (count is_summarize_call seg ≤ count is_extract_call seg)%nat
  ∧ count is_outbound seg
    = (count is_extract_call seg + count is_summarize_call seg)%nat
  ∧ count is_cache_write seg = 0%nat.

(** The state after a run that read or changed the world and added [l] to
    the trace, leaving the cache alone. *)
Definition after {W} (s : State W) (w : W) (l : list event) : State W :=
  {| world := w; _summaries_cache := _summaries_cache s; trace := trace s ++ l |}.

Definition page_headers : gmap pystr value := <[py "User-Agent" := VStr USER_AGENT]> ∅.

(** How the processing of an article can end, in the words of the
    specification (section 4.4). *)
Inductive verdict : Type :=
| NoUrl
| NoContent
| NoSummary
| Summarized (summary : pystr).

Definition verdict_summary (v : verdict) : value :=
  match v with
  | Summarized summary => VStr summary
  | _ => VNone
  end.

Definition verdict_error (v : verdict) : value :=
  match v with
  | NoUrl => VStr (py "No URL available for article.")
  | NoContent => VStr (py "Could not extract article content.")
  | NoSummary => VStr (py "Could not generate summary.")
  | Summarized _ => VNone
  end.

(** [article.get(key, 'N/A')] on a dictionary. *)
Definition field (article : gmap pystr value) (key : pystr) : value :=
  match article !! key with Some v => v | None => VStr (py "N/A") end.

(** The SummaryRecord of an article with a given verdict. *)
Definition summary_record (article : gmap pystr value) (v : verdict) : gmap pystr value :=
  <[py "error" := verdict_error v]> (<[py "summary" := verdict_summary v]>
  (<[py "published" := field article (py "published_at")]>
  (<[py "url" := field article (py "url")]>
  (<[py "source" := field article (py "source")]>
  (<[py "title" := field article (py "title")]> ∅))))).

(** The URL the branch of line 123 looks at: [article.get('url')]. *)
Definition article_url (article : gmap pystr value) : value :=
  match article !! py "url" with Some v => v | None => VNone end.

Definition records (articles : list (gmap pystr value)) (vs : list verdict) : list value :=
  map VDict (zip_with summary_record articles vs).

(** Exactly one of ['summary'] and ['error'] is not [None]. *)
Definition summary_xor_error (r : value) : bool :=
  match r with
  | VDict d =>
      match d !! py "summary", d !! py "error" with
      | Some sm, Some er => xorb (is_null sm) (is_null er)
      | _, _ => false
      end
  | _ => false
  end.

(** The record shows the article's value under [key] as its own [shown],
    or 'N/A' when the article has no such key. *)
Definition passes_through (article record : gmap pystr value) (key shown : pystr) : Prop :=
  match article !! key with
  | Some v => record !! shown = Some v
  | None => record !! shown = Some (VStr (py "N/A"))
  end.

Definition metadata_kept (article : gmap pystr value) (r : value) : Prop :=
  ∃ record, r = VDict record
    ∧ passes_through article record (py "title") (py "title")
    ∧ passes_through article record (py "source") (py "source")
    ∧ passes_through article record (py "url") (py "url")
    ∧ passes_through article record (py "published_at") (py "published").

(** What a verdict puts into the two result fields. *)
Definition verdict_shown (v : verdict) (r : value) : Prop :=
  ∃ record, r = VDict record ∧
    match v with
    | Summarized summary =>
        record !! py "summary" = Some (VStr summary) ∧ record !! py "error" = Some VNone
    | NoUrl =>
        record !! py "summary" = Some VNone
        ∧ record !! py "error" = Some (VStr (py "No URL available for article."))
    | NoContent =>
        record !! py "summary" = Some VNone
        ∧ record !! py "error" = Some (VStr (py "Could not extract article content."))
    | NoSummary =>
        record !! py "summary" = Some VNone
        ∧ record !! py "error" = Some (VStr (py "Could not generate summary."))
    end.

(** STALE in the words of section 4.5: no data, or an age of the TTL or
    more. *)
Definition stale (c : Cache) (now : float) : Prop :=
  data c = None
  ∨ PrimFloat.leb CACHE_TTL (PrimFloat.sub now (timestamp c)) = true.

(** Every record of the list in the cache has exactly one of summary and
    error. *)
Definition cache_records_ok (c : Cache) : Prop :=
  match data c with
  | Some results => Forall (λ r, summary_xor_error r = true) results
  | None => True
  end.

Section Vocabulary.
Context {W : Type} `{External W}.

(** The four steps of section 4.4, with the calls they make. *)
Inductive article_step (self : NewsSummarizer) (article : gmap pystr value)
    (s : State W) : verdict → State W → Prop :=
| step_no_url :
    truthy (article_url article) = false →
    article_step self article s NoUrl s
| step_no_content s1 :
    truthy (article_url article) = true →
    extract_content self (article_url article) s = (Ok [], s1) →
    article_step self article s NoContent s1
| step_no_summary content s1 s2 :
    truthy (article_url article) = true →
    extract_content self (article_url article) s = (Ok content, s1) →
    content ≠ [] →
    generate_summary self content s1 = (Ok [], s2) →
    article_step self article s NoSummary s2
| step_summarized content summary s1 s2 :
    truthy (article_url article) = true →
    extract_content self (article_url article) s = (Ok content, s1) →
    content ≠ [] →
    generate_summary self content s1 = (Ok summary, s2) →
    summary ≠ [] →
    article_step self article s (Summarized summary) s2.

(** The loop in the words of the specification: the articles are taken in
    order, each one to its verdict, the next one in the state the previous
    one left. *)
Inductive pipeline_run (self : NewsSummarizer) :
    list (gmap pystr value) → State W → list verdict → State W → Prop :=
| run_done s : pipeline_run self [] s [] s
| run_next article rest s v s1 vs s2 :
    article_step self article s v s1 →
    pipeline_run self rest s1 vs s2 →
    pipeline_run self (article :: rest) s (v :: vs) s2.

(** The state once a library call has moved the world to [w]. *)
Definition at_world (s : State W) (w : W) : State W :=
  {| world := w; _summaries_cache := _summaries_cache s; trace := trace s |}.

(** The state after the two assignments of lines 138 and 139. *)
Definition stored_state (s : State W) (w : W) (t : float) (results : list value) : State W :=
  {| world := w;
     _summaries_cache := {| timestamp := t; data := Some results |};
     trace := trace s ++
       [CacheWrite {| timestamp := t; data := data (_summaries_cache s) |};
        CacheWrite {| timestamp := t; data := Some results |}] |}.

Definition ok_response (results : list value) : HttpResponse :=
  {| body := jsonify (VList results); status := 200 |}.

Definition not_found_response : HttpResponse :=
  {| body := jsonify NO_ARTICLES; status := 404 |}.

(** The ways through lines 106-140, once line 105 has built the
    summarizer [self]. *)
Inductive refresh_outcome (self : NewsSummarizer) (s : State W)
  : result HttpResponse → State W → Prop :=
| fetch_raised e s1 :
    fetch_news self s = (Raise e, s1) →
    refresh_outcome self s (Raise e) s1
| no_articles articles s1 :
    fetch_news self s = (Ok articles, s1) →
    truthy articles = false →
    refresh_outcome self s (Ok not_found_response) s1
| not_iterable articles e s1 :
    fetch_news self s = (Ok articles, s1) →
    truthy articles = true →
    py_iter articles = Raise e →
    refresh_outcome self s (Raise e) s1
| loop_raised articles items e s1 s2 :
    fetch_news self s = (Ok articles, s1) →
    truthy articles = true →
    py_iter articles = Ok items →
    for_articles self items [] s1 = (Raise e, s2) →
    refresh_outcome self s (Raise e) s2
| stored articles items results s1 s2 t w :
    fetch_news self s = (Ok articles, s1) →
    truthy articles = true →
    py_iter articles = Ok items →
    for_articles self items [] s1 = (Ok results, s2) →
    time_time (world s2) = (t, w) →
    refresh_outcome self s (Ok (ok_response results)) (stored_state s2 w t results).

(** The ways through the handler: the cache answers; or it cannot and the
    constructor of line 105 raises; or it cannot and lines 106-140 run. *)
Inductive handler_outcome (s : State W) : result HttpResponse → State W → Prop :=
| served_from_cache now w stored_data :
    time_time (world s) = (now, w) →
    data (_summaries_cache s) = Some stored_data →
    PrimFloat.ltb (PrimFloat.sub now (timestamp (_summaries_cache s))) CACHE_TTL = true →
    handler_outcome s (Ok (ok_response stored_data)) (at_world s w)
| constructor_raised now w e :
    time_time (world s) = (now, w) →
    is_fresh (_summaries_cache s) now = false →
    NewsSummarizer_init = Raise e →
    handler_outcome s (Raise e) (at_world s w)
| recomputed now w self r s' :
    time_time (world s) = (now, w) →
    is_fresh (_summaries_cache s) now = false →
    NewsSummarizer_init = Ok self →
    refresh_outcome self (at_world s w) r s' →
    handler_outcome s r s'.

(** The address of the news API and the parameters of the request for the
    news: the access key of the environment and the country. *)
Definition news_url : pystr := py "http://api.mediastack.com/v1/news".

Definition news_params : gmap pystr value :=
  <[py "access_key" := os_getenv (py "MEDIASTACK_API_KEY")]>
    (<[py "countries" := VStr (py "in")]> ∅).

Definition fetch_events (prints : list event) : list event :=
  Call_fetch_news
  :: Outbound_get (VStr news_url) news_params ∅
  :: prints.




End Vocabulary.

(* ===================================================================== *)
(** ** The vocabulary of the further properties *)
(* ===================================================================== *)

Definition error_status (response : Response) : bool :=
  ((400 <=? status_code response) && (status_code response <? 600))%Z.

(** A summary as a record may show it: not empty, no white space at
    either end. *)
Definition tidy (t : pystr) : Prop :=
  t ≠ [] ∧ starts_with_space t = false ∧ ends_with_space t = false.

Definition verdict_tidy (v : verdict) : Prop :=
  match v with Summarized t => tidy t | _ => True end.

Definition summary_tidy (r : value) : Prop :=
  ∃ record, r = VDict record ∧
    match record !! py "summary" with
    | Some (VStr t) => tidy t
    | Some VNone => True
    | _ => False
    end.

(** The keys of a SummaryRecord. *)
Definition record_keys : gset pystr :=
  {[py "title"; py "source"; py "url"; py "published"; py "summary"; py "error"]}.

Definition has_record_keys (r : value) : Prop :=
  ∃ record, r = VDict record ∧ dom record = record_keys.

Definition GEMINI_MODEL : pystr := py "gemini-2.0-flash".

(** No line printed, or one. *)
Definition at_most_one_print (prints : list event) : Prop :=
  prints = [] ∨ ∃ line, prints = [Print line].

(** What the processing of one article adds to the trace: nothing; or the
    request for its page, after which a line may be printed; or the request
    for its page and the request for a summary of the text that came back,
    after which a line may be printed. *)
Inductive segment_shape : list event → Prop :=
| segment_empty : segment_shape []
| segment_page url prints :
    truthy url = true →
    at_most_one_print prints →
    segment_shape (Call_extract_content url :: Outbound_get url ∅ page_headers :: prints)
| segment_summary url content prints :
    truthy url = true →
    content ≠ [] →
    at_most_one_print prints →
    segment_shape (Call_extract_content url :: Outbound_get url ∅ page_headers
                   :: Call_generate_summary content
                   :: Outbound_generate GEMINI_MODEL (summary_prompt content)
                   :: prints).


Section MoreVocabulary.
Context {W : Type} `{External W}.

(** The ways in which an article page is not to be had: the request
    raises, the status is an error, or the parser raises. *)
Inductive page_unavailable (url : value) (w0 w : W) : Prop :=
| page_raises e :
    requests_get url ∅ page_headers w0 = (Raise e, w) →
    page_unavailable url w0 w
| page_status response :
    requests_get url ∅ page_headers w0 = (Ok response, w) →
    error_status response = true →
    page_unavailable url w0 w
| page_unparsed response e :
    requests_get url ∅ page_headers w0 = (Ok response, w) →
    error_status response = false →
    html_parser (text response) = Raise e →
    page_unavailable url w0 w.

(** The ways in which the news are not to be had, as [fetch_news] sees
    them: the request raises within the [requests] family, the status is an
    error, or the body is no JSON. *)
Inductive news_unavailable (self : NewsSummarizer) (w0 w : W) : Prop :=
| news_raises msg :
    requests_get (VStr (mediastack_url self)) (mediastack_params self) ∅ w0
      = (Raise (RequestException msg), w) →
    news_unavailable self w0 w
| news_status response :
    requests_get (VStr (mediastack_url self)) (mediastack_params self) ∅ w0
      = (Ok response, w) →
    error_status response = true →
    news_unavailable self w0 w
| news_undecodable response msg :
    requests_get (VStr (mediastack_url self)) (mediastack_params self) ∅ w0
      = (Ok response, w) →
    error_status response = false →
    json response = Raise (RequestException msg) →
    news_unavailable self w0 w.

Definition news_events (self : NewsSummarizer) (prints : list event) : list event :=
  Call_fetch_news
  :: Outbound_get (VStr (mediastack_url self)) (mediastack_params self) ∅
  :: prints.

(** The requests the program may send: the one for the news, with the
    access key and the country; one for a page, with the browser header and
    no parameters; one for a summary, to the fixed model, with the prompt
    around a text that is not empty. *)
Definition request_well_formed (e : event) : Prop :=
  match e with
  | Outbound_get url params headers =>
      (url = VStr (py "http://api.mediastack.com/v1/news")
       ∧ params = news_params ∧ headers = ∅)
      ∨ (params = ∅ ∧ headers = page_headers)
  | Outbound_generate model contents =>
      model = GEMINI_MODEL ∧ ∃ content, content ≠ [] ∧ contents = summary_prompt content
  | _ => True
  end.

(** The trace of a request to the endpoint: nothing when the cache
    answers or the constructor raises; else the fetch of the news, a segment
    per article the loop got to, and the two assignments to the cache if it
    got through. *)
Inductive handler_trace : list event → Prop :=
| trace_served : handler_trace []
| trace_recomputed prints segs stores :
    at_most_one_print prints →
    Forall segment_shape segs →
    Forall (λ e, is_cache_write e = true) stores →
    handler_trace (fetch_events prints ++ concat segs ++ stores).

(** An event that is neither a fetch of the news nor an assignment to
    the cache, and a well-formed request if it is a request. *)
Definition calm (e : event) : Prop :=
  is_cache_write e = false ∧ is_fetch_call e = false ∧ request_well_formed e.

End MoreVocabulary.

(* ===================================================================== *)
(** ** Facts about the string functions *)
(* ===================================================================== *)

Section Strings.

Lemma lstrip_suffix (s : pystr) : ∃ pre, s = pre ++ lstrip s.
Proof.
  induction s as [|c s [pre IH]]; simpl.
  - by exists [].
  - destruct (isspace c).
    + exists (c :: pre). simpl. by rewrite <- IH.
    + by exists [].
Qed.

Lemma lstrip_starts (s : pystr) : starts_with_space (lstrip s) = false.
Proof.
  induction s as [|c s IH]; simpl; [done|].
  destruct (isspace c) eqn:E; [done|]. simpl. by rewrite E.
Qed.

Lemma rstrip_prefix (s : pystr) : ∃ post, s = rstrip s ++ post.
Proof.
  unfold rstrip. destruct (lstrip_suffix (rev s)) as [pre E].
  exists (rev pre). rewrite <- rev_app_distr, <- E. by rewrite rev_involutive.
Qed.

Lemma strip_infix (s : pystr) : ∃ pre post, s = pre ++ strip s ++ post.
Proof.
  unfold strip. destruct (lstrip_suffix s) as [pre E].
  destruct (rstrip_prefix (lstrip s)) as [post E'].
  exists pre, post. by rewrite <- E', <- E.
Qed.

Lemma strip_ends (s : pystr) : ends_with_space (strip s) = false.
Proof.
  unfold ends_with_space, strip, rstrip. rewrite rev_involutive.
  apply lstrip_starts.
Qed.

Lemma strip_starts (s : pystr) : starts_with_space (strip s) = false.
Proof.
  unfold strip. pose proof (lstrip_starts s) as Hs.
  destruct (rstrip_prefix (lstrip s)) as [post E].
  destruct (rstrip (lstrip s)) as [|c r]; [done|].
  rewrite E in Hs. exact Hs.
Qed.

(** Neighbours inside a part are neighbours in the whole. *)
Lemma has_adjacent_app_l p (l1 l2 : pystr) :
  has_adjacent p (l1 ++ l2) = false → has_adjacent p l1 = false.
Proof.
  induction l1 as [|a [|b l1] IH]; simpl; try done.
  intros [? ?]%orb_false_iff. apply orb_false_iff. split; [done|]. by apply IH.
Qed.

Lemma has_adjacent_app_r p (l1 l2 : pystr) :
  has_adjacent p (l1 ++ l2) = false → has_adjacent p l2 = false.
Proof.
  induction l1 as [|a l1 IH]; simpl; [done|].
  destruct (l1 ++ l2) as [|b r] eqn:E.
  - intros _. destruct l1; [|done]. simpl in E. by subst.
  - intros [? ?]%orb_false_iff. by apply IH.
Qed.

Lemma has_adjacent_infix p (pre s post : pystr) :
  has_adjacent p (pre ++ s ++ post) = false → has_adjacent p s = false.
Proof.
  intros Hp. apply has_adjacent_app_r in Hp. by apply has_adjacent_app_l in Hp.
Qed.

(** Two parts without neighbours, glued where not both sides satisfy [p]. *)
Lemma has_adjacent_glue p (l1 l2 : pystr) :
  has_adjacent p l1 = false → has_adjacent p l2 = false →
  head_sat p (rev l1) && head_sat p l2 = false →
  has_adjacent p (l1 ++ l2) = false.
Proof.
  induction l1 as [|a l1 IH]; [done|].
  intros H1 H2 Hb. destruct l1 as [|b l1].
  - simpl in *. destruct l2 as [|c l2]; [done|]. simpl in *.
    by rewrite Hb, H2.
  - change ((a :: b :: l1) ++ l2) with (a :: b :: (l1 ++ l2)).
    change (has_adjacent p (a :: b :: l1 ++ l2))
      with ((p a && p b) || has_adjacent p ((b :: l1) ++ l2)).
    change (has_adjacent p (a :: b :: l1))
      with ((p a && p b) || has_adjacent p (b :: l1)) in H1.
    apply orb_false_iff in H1 as [Hab H1]. rewrite Hab. simpl orb.
    apply IH; [done|done|].
    change (rev (a :: b :: l1)) with (rev (b :: l1) ++ [a]) in Hb.
    destruct (rev (b :: l1)) as [|z r] eqn:E; [|exact Hb].
    apply (f_equal (@length N)) in E. rewrite length_rev in E. done.
Qed.

Lemma split_2sp_step (c d : N) (t : pystr) :
  split_2sp (c :: d :: t) =
    if is_space_char c && is_space_char d then [] :: split_2sp t
    else push_front c (split_2sp (d :: t)).
Proof. reflexivity. Qed.

Lemma split_2sp_first (d : N) (s : pystr) :
  ∃ p ps, split_2sp (d :: s) = p :: ps ∧ (p = [] ∨ ∃ p', p = d :: p').
Proof.
  destruct s as [|e s].
  - exists [d], []. split; [done|]. right. by exists [].
  - rewrite split_2sp_step. destruct (is_space_char d && is_space_char e).
    + eexists _, _. split; [done|]. by left.
    + destruct (split_2sp (e :: s)) as [|q qs];
        simpl; eexists _, _; (split; [done|]); right; by eexists.
Qed.

(** The pieces between double spaces hold no double space. *)
Lemma split_2sp_no_double (s : pystr) :
  Forall (λ piece, has_adjacent is_space_char piece = false) (split_2sp s).
Proof.
  assert (∀ n (t : pystr), (length t ≤ n)%nat →
    Forall (λ piece, has_adjacent is_space_char piece = false) (split_2sp t)) as Hn.
  { induction n as [|n IH]; intros t Hl.
    - destruct t; [|simpl in Hl; lia]. by repeat constructor.
    - destruct t as [|c [|d t]]; [by repeat constructor..|].
      rewrite split_2sp_step. destruct (is_space_char c && is_space_char d) eqn:E.
      + constructor; [done|]. apply IH. simpl in *. lia.
      + pose proof (IH (d :: t) ltac:(simpl in *; lia)) as Hd.
        destruct (split_2sp_first d t) as (p & ps & Ep & Hp).
        rewrite Ep in *. simpl. apply Forall_cons in Hd as [Hp1 Hps].
        constructor; [|done].
        destruct Hp as [->|[p' ->]]; [done|].
        change (has_adjacent is_space_char (c :: d :: p'))
          with ((is_space_char c && is_space_char d)
                || has_adjacent is_space_char (d :: p')).
        by rewrite E, Hp1. }
  by apply (Hn (length s)).
Qed.

(** Splitting invents no character. *)
Lemma split_2sp_chars (P : N → Prop) (s : pystr) :
  Forall P s → Forall (Forall P) (split_2sp s).
Proof.
  assert (∀ n (t : pystr), (length t ≤ n)%nat → Forall P t →
    Forall (Forall P) (split_2sp t)) as Hn.
  { induction n as [|n IH]; intros t Hl Ht.
    - destruct t; [|simpl in Hl; lia]. by repeat constructor.
    - destruct t as [|c [|d t]]; [simpl; by repeat constructor| |].
      { simpl. by constructor. }
      rewrite split_2sp_step. destruct (is_space_char c && is_space_char d).
      + constructor; [done|]. apply IH; [simpl in *; lia|].
        by do 2 apply Forall_cons in Ht as [_ Ht].
      + apply Forall_cons in Ht as [Hc Ht].
        pose proof (IH (d :: t) ltac:(simpl in *; lia) Ht) as Hd.
        destruct (split_2sp (d :: t)) as [|q qs]; simpl.
        * by repeat constructor.
        * apply Forall_cons in Hd as [? ?]. by repeat constructor. }
  by apply (Hn (length s)).
Qed.

Lemma strip_chars (P : N → Prop) (s : pystr) : Forall P s → Forall P (strip s).
Proof.
  destruct (strip_infix s) as (pre & post & E). intros Hs. rewrite E in Hs.
  apply Forall_app in Hs as [_ Hs]. by apply Forall_app in Hs as [Hs _].
Qed.

Lemma strip_no_double p (s : pystr) :
  has_adjacent p s = false → has_adjacent p (strip s) = false.
Proof.
  destruct (strip_infix s) as (pre & post & E). intros Hs. rewrite E in Hs.
  by apply has_adjacent_infix in Hs.
Qed.

(** Every line [splitlines] returns is free of line boundaries. *)
Lemma splitlines_from_chars (s cur : pystr) :
  Forall (λ c, is_linebreak c = false) cur →
  Forall (Forall (λ c, is_linebreak c = false)) (splitlines_from cur s).
Proof.
  assert (∀ n (t cur : pystr), (length t ≤ n)%nat →
    Forall (λ c, is_linebreak c = false) cur →
    Forall (Forall (λ c, is_linebreak c = false)) (splitlines_from cur t)) as Hn.
  { clear. induction n as [|n IH]; intros t cur Hl Hcur.
    - destruct t; [|simpl in Hl; lia]. simpl. destruct cur; [done|].
      constructor; [|done]. by apply Forall_rev.
    - destruct t as [|c t].
      + simpl. destruct cur; [done|]. constructor; [|done]. by apply Forall_rev.
      + cbn [splitlines_from]. destruct (is_linebreak c) eqn:E.
        * constructor; [by apply Forall_rev|].
          destruct t as [|d t]; [by apply IH; [simpl; lia|]|].
          destruct ((c =? CR) && (d =? LF)); apply IH; simpl in *; (lia || done).
        * apply IH; [simpl in *; lia|]. by constructor. }
  by apply (Hn (length s)).
Qed.

Lemma splitlines_chars (s : pystr) :
  Forall (Forall (λ c, is_linebreak c = false)) (splitlines s).
Proof. by apply splitlines_from_chars. Qed.

Lemma join_chars (P : N → Prop) (sep : pystr) (pieces : list pystr) :
  Forall P sep → Forall (Forall P) pieces → Forall P (join sep pieces).
Proof.
  intros Hsep. induction 1 as [|p ps Hp Hps IH]; simpl; [done|].
  destruct ps as [|q qs]; [done|]. apply Forall_app. split; [done|].
  apply Forall_app. by split.
Qed.

Lemma space_char_isspace (c : N) : is_space_char c = true → isspace c = true.
Proof. unfold is_space_char, SPACE. intros ->%N.eqb_eq. reflexivity. Qed.

Lemma head_sat_space (s : pystr) :
  starts_with_space s = false → head_sat is_space_char s = false.
Proof.
  destruct s as [|c s]; simpl; [done|]. intros Hc.
  destruct (is_space_char c) eqn:E; [|done].
  apply space_char_isspace in E. congruence.
Qed.

Lemma join_chunks (chunks : list pystr) :
  Forall chunk_ok chunks →
  has_adjacent is_space_char (join (py " ") chunks) = false
  ∧ starts_with_space (join (py " ") chunks) = false
  ∧ ends_with_space (join (py " ") chunks) = false
  ∧ (chunks ≠ [] → join (py " ") chunks ≠ []).
Proof.
  induction 1 as [|p ps (Hne & Hs & He & Ha) Hps (IHa & IHs & IHe & IHn)].
  { by repeat split. }
  destruct ps as [|q qs].
  { simpl. by repeat split. }
  change (join (py " ") (p :: q :: qs))
    with (p ++ [SPACE] ++ join (py " ") (q :: qs)).
  set (J := join (py " ") (q :: qs)) in *.
  assert (J ≠ []) as HJ by (by apply IHn).
  repeat split.
  - apply has_adjacent_glue; [done| |].
    + apply (has_adjacent_glue _ [SPACE] J); [done|done|].
      rewrite (head_sat_space J IHs). apply andb_false_r.
    + unfold ends_with_space in He. rewrite (head_sat_space _ He). done.
  - destruct p; [done|]. exact Hs.
  - unfold ends_with_space in *. rewrite !rev_app_distr.
    destruct (rev J) as [|z r] eqn:E; [|exact IHe].
    apply (f_equal (@length N)) in E. rewrite length_rev in E.
    destruct J; [done|]. done.
  - intros _. by destruct p.
Qed.

(** What lines 61-63 guarantee about the text they return. *)
Lemma clean_text_shape (text : pystr) :
  has_adjacent is_space_char (clean_text text) = false
  ∧ Forall (λ c, is_linebreak c = false) (clean_text text)
  ∧ starts_with_space (clean_text text) = false
  ∧ ends_with_space (clean_text text) = false.
Proof.
  unfold clean_text.
  set (lines := map strip (splitlines text)).
  set (chunks := flat_map (λ line, map strip (split_2sp line)) lines).
  assert (Forall (Forall (λ c, is_linebreak c = false)) chunks) as Hlb.
  { apply Forall_flat_map, Forall_forall. intros line Hline.
    apply Forall_map. apply list_elem_of_In, in_map_iff in Hline
      as (raw & <- & Hraw%list_elem_of_In).
    pose proof (splitlines_chars text) as Hall.
    rewrite Forall_forall in Hall. pose proof (Hall _ Hraw) as Hr.
    apply (strip_chars _ raw) in Hr. apply split_2sp_chars in Hr.
    eapply Forall_impl; [exact Hr|]. intros piece. apply strip_chars. }
  assert (Forall chunk_ok (List.filter nonempty chunks)) as Hok.
  { apply Forall_forall. intros c [Hc Hne]%list_elem_of_In%filter_In.
    apply in_flat_map in Hc as (line & _ & Hc).
    apply in_map_iff in Hc as (piece & <- & Hpiece).
    repeat split.
    - by destruct (strip piece).
    - apply strip_starts.
    - apply strip_ends.
    - apply strip_no_double.
      pose proof (split_2sp_no_double line) as Hall.
      rewrite Forall_forall in Hall. apply Hall. by apply list_elem_of_In. }
  destruct (join_chunks _ Hok) as (Ha & Hs & He & _).
  repeat split; try done.
  apply join_chars; [by repeat constructor|].
  apply Forall_forall. intros c [Hc _]%list_elem_of_In%filter_In.
  rewrite Forall_forall in Hlb. apply Hlb. by apply list_elem_of_In.
Qed.

End Strings.

(* ===================================================================== *)
(** ** Facts about the tree functions *)
(* ===================================================================== *)

Lemma node_induction (P : node → Prop) :
  (∀ s, P (NavigableString s)) →
  (∀ s, P (Comment s)) →
  (∀ name contents, Forall P contents → P (Tag name contents)) →
  ∀ n, P n.
Proof.
  intros Hs Hc Ht. fix IH 1. intros [s|s|name contents]; [apply Hs|apply Hc|].
  apply Ht. induction contents as [|c cs IHcs]; constructor; [apply IH|exact IHcs].
Qed.

Lemma flat_map_flat_map {A B C} (f : A → list B) (g : B → list C) (l : list A) :
  flat_map g (flat_map f l) = flat_map (λ a, flat_map g (f a)) l.
Proof.
  induction l as [|a l IH]; simpl; [done|]. by rewrite flat_map_app, IH.
Qed.

Lemma flat_map_ext_Forall {A B} (f g : A → list B) (l : list A) :
  Forall (λ a, f a = g a) l → flat_map f l = flat_map g l.
Proof. induction 1 as [|a l E _ IH]; simpl; [done|]. by rewrite E, IH. Qed.

(** Removing the elements and then reading the text gives the text that
    lies outside the elements. *)
Lemma decompose_named_text (names : list pystr) (n : node) :
  flat_map node_text (decompose_named names n) = text_outside names n.
Proof.
  induction n as [s|s|name contents IH] using node_induction; simpl;
    [by rewrite app_nil_r|done|].
  destruct (bool_decide (name ∈ names)); simpl; [done|].
  rewrite app_nil_r, flat_map_flat_map. by apply flat_map_ext_Forall.
Qed.

Lemma decompose_all_text (names : list pystr) (doc : soup) :
  get_text (decompose_all names doc) = document_text_without names doc.
Proof.
  unfold get_text, decompose_all, document_text_without.
  rewrite flat_map_flat_map. apply flat_map_ext_Forall, Forall_forall.
  intros n _. apply decompose_named_text.
Qed.

(* ===================================================================== *)
(** ** Facts about traces and states *)
(* ===================================================================== *)

Lemma count_app p (l1 l2 : list event) : count p (l1 ++ l2) = (count p l1 + count p l2)%nat.
Proof. unfold count. by rewrite List.filter_app, length_app. Qed.

Lemma count_cons p e (l : list event) :
  count p (e :: l) = ((if p e then 1 else 0) + count p l)%nat.
Proof. unfold count. simpl. by destruct (p e). Qed.

Lemma count_prints p (l : list event) :
  (∀ line, p (Print line) = false) → forallb is_print l = true → count p l = 0%nat.
Proof.
  intros Hp. induction l as [|e l IH]; [done|]. simpl.
  intros [He Hl]%andb_true_iff. rewrite count_cons, IH by done.
  destruct e; try done. by rewrite Hp.
Qed.

Lemma after_after {W} (s : State W) w1 l1 w2 l2 :
  after (after s w1 l1) w2 l2 = after s w2 (l1 ++ l2).
Proof. unfold after. simpl. by rewrite app_assoc. Qed.

Lemma after_nil {W} (s : State W) : after s (world s) [] = s.
Proof. unfold after. rewrite app_nil_r. by destruct s. Qed.

(* ===================================================================== *)
(** ** How the three methods run *)
(* ===================================================================== *)

Ltac unfold_run :=
  cbv beta iota zeta delta
    [mbind M_bind mret M_ret try_except emit print raise lift
     get_ generate_content_ call_world with_world raise_for_status
     set_timestamp set_data read_cache write_cache now_ is_Exception] in *;
  cbn [world _summaries_cache trace] in *.

Ltac finish_run :=
  unfold after; unfold_run; rewrite <- ?app_assoc; cbn [app].

Ltac key_ne := let E := fresh in intros E; vm_compute in E; discriminate E.

Section Runs.
Context {W : Type} `{External W}.

(** [extract_content] always returns: one outbound request, then the text
    or, after a printed line, the empty string. *)
Lemma extract_content_run (self : NewsSummarizer) (url : value) (s : State W) :
  ∃ content w prints,
    extract_content self url s =
      (Ok content,
       after s w (Call_extract_content url :: Outbound_get url ∅ page_headers :: prints))
    ∧ forallb is_print prints = true.
Proof.
  unfold extract_content. unfold_run. fold page_headers.
  destruct (requests_get url ∅ page_headers (world s)) as [[response|e] w].
  - unfold_run.
    destruct ((400 <=? status_code response)%Z && (status_code response <? 600)%Z).
    + eexists _, w, [_]. finish_run. split; reflexivity.
    + unfold_run.
      destruct (html_parser (text response)) as [doc|e].
      * eexists _, w, []. finish_run. split; reflexivity.
      * eexists _, w, [_]. finish_run. split; reflexivity.
  - eexists _, w, [_]. finish_run. split; reflexivity.
Qed.

(** The successful path of [extract_content]. *)
Lemma extract_content_success (self : NewsSummarizer) (url : value) (s : State W)
    (response : Response) (w : W) (doc : soup) :
  requests_get url ∅ page_headers (world s) = (Ok response, w) →
  ((400 <=? status_code response) && (status_code response <? 600))%Z = false →
  html_parser (text response) = Ok doc →
  extract_content self url s =
    (Ok (clean_text (get_text (decompose_all [py "script"; py "style"; py "a"] doc))),
     after s w [Call_extract_content url; Outbound_get url ∅ page_headers]).
Proof.
  intros Hget Hstatus Hparse. unfold extract_content. unfold_run. fold page_headers.
  rewrite Hget. unfold_run. rewrite Hstatus. unfold_run. rewrite Hparse.
  finish_run. reflexivity.
Qed.

(** [generate_summary] always returns: one outbound request, then the
    stripped text or, after a printed line, the empty string. *)
Lemma generate_summary_run (self : NewsSummarizer) (content : pystr) (s : State W) :
  ∃ summary w prints,
    generate_summary self content s =
      (Ok summary,
       after s w (Call_generate_summary content
                  :: Outbound_generate (py "gemini-2.0-flash") (summary_prompt content)
                  :: prints))
    ∧ forallb is_print prints = true.
Proof.
  unfold generate_summary. unfold_run.
  destruct (generate_content (gemini_client self) (py "gemini-2.0-flash")
              (summary_prompt content) (world s)) as [[response|e] w].
  - unfold_run. destruct (response_text response) as [t|].
    + eexists _, w, []. finish_run. split; reflexivity.
    + eexists _, w, [_]. finish_run. split; reflexivity.
  - eexists _, w, [_]. finish_run. split; reflexivity.
Qed.

(** [fetch_news] makes one outbound request and either returns or lets an
    exception through; it never touches the cache. *)
Lemma fetch_news_run (self : NewsSummarizer) (s : State W) :
  ∃ r w prints,
    fetch_news self s =
      (r, after s w (Call_fetch_news
                     :: Outbound_get (VStr (mediastack_url self)) (mediastack_params self) ∅
                     :: prints))
    ∧ forallb is_print prints = true.
Proof.
  unfold fetch_news. unfold_run.
  destruct (requests_get (VStr (mediastack_url self)) (mediastack_params self) ∅ (world s))
    as [[response|e] w].
  - unfold_run.
    destruct ((400 <=? status_code response)%Z && (status_code response <? 600)%Z).
    + eexists _, w, [_]. finish_run. split; reflexivity.
    + unfold_run. destruct (json response) as [data|e].
      * destruct (py_get data (py "data") (VList [])) as [v|e'].
        -- eexists _, w, []. finish_run. split; reflexivity.
        -- destruct (is_RequestException e').
           ++ eexists _, w, [_]. finish_run. split; reflexivity.
           ++ eexists _, w, []. finish_run. split; reflexivity.
      * destruct (is_RequestException e).
        -- eexists _, w, [_]. finish_run. split; reflexivity.
        -- eexists _, w, []. finish_run. split; reflexivity.
  - destruct (is_RequestException e).
    + eexists _, w, [_]. finish_run. split; reflexivity.
    + eexists _, w, []. finish_run. split; reflexivity.
Qed.

(** A failure of the [requests] family ends in the empty list. *)
Lemma fetch_news_request_exception (self : NewsSummarizer) (s : State W) msg w :
  requests_get (VStr (mediastack_url self)) (mediastack_params self) ∅ (world s)
    = (Raise (RequestException msg), w) →
  ∃ prints, fetch_news self s =
    (Ok (VList []),
     after s w (Call_fetch_news
                :: Outbound_get (VStr (mediastack_url self)) (mediastack_params self) ∅
                :: prints)).
Proof.
  intros Hget. unfold fetch_news. unfold_run. rewrite Hget.
  eexists [_]. finish_run. reflexivity.
Qed.

(** An answer that is not a dictionary makes [data.get] raise
    [AttributeError], which the [except] clause of [fetch_news] lets pass. *)
Lemma fetch_news_not_a_dict (self : NewsSummarizer) (s : State W)
    (response : Response) (answer : value) w :
  requests_get (VStr (mediastack_url self)) (mediastack_params self) ∅ (world s)
    = (Ok response, w) →
  ((400 <=? status_code response) && (status_code response <? 600))%Z = false →
  json response = Ok answer →
  (∀ d, answer ≠ VDict d) →
  ∃ msg, fetch_news self s =
    (Raise (AttributeError msg),
     after s w [Call_fetch_news;
                Outbound_get (VStr (mediastack_url self)) (mediastack_params self) ∅]).
Proof.
  intros Hget Hstatus Hjson Hnd. unfold fetch_news. unfold_run. rewrite Hget.
  unfold_run. rewrite Hstatus. unfold_run. rewrite Hjson.
  destruct answer; try (eexists; finish_run; reflexivity).
  by destruct (Hnd d).
Qed.

(* ===================================================================== *)
(** ** One article *)
(* ===================================================================== *)

Lemma summarize_article_dict (self : NewsSummarizer) (article : gmap pystr value)
    (s : State W) :
  ∃ v s', article_step self article s v s'
    ∧ summarize_article self (VDict article) s = (Ok (VDict (summary_record article v)), s').
Proof.
  unfold summarize_article, py_get. unfold_run.
  fold (field article (py "title")) (field article (py "source"))
       (field article (py "url")) (field article (py "published_at"))
       (article_url article).
  destruct (truthy (article_url article)) eqn:Hurl.
  2:{ exists NoUrl, s. split; [by constructor|].
      unfold summary_record. cbn [verdict_error verdict_summary].
      by rewrite insert_insert_eq. }
  destruct (extract_content_run self (article_url article) s)
    as (content & w1 & p1 & E1 & _).
  rewrite E1. destruct content as [|c content]; cbn [nonempty].
  { exists NoContent. eexists. split; [by eapply step_no_content|].
    unfold summary_record. cbn [verdict_error verdict_summary].
    by rewrite insert_insert_eq. }
  match type of E1 with _ = (_, ?st) => set (s1 := st) in * end.
  destruct (generate_summary_run self (c :: content) s1)
    as (summary & w2 & p2 & E2 & _).
  rewrite E2. destruct summary as [|z summary]; cbn [nonempty].
  { exists NoSummary. eexists. split; [by eapply step_no_summary|].
    unfold summary_record. cbn [verdict_error verdict_summary].
    by rewrite insert_insert_eq. }
  exists (Summarized (z :: summary)). eexists.
  split; [by eapply step_summarized|].
  unfold summary_record. cbn [verdict_error verdict_summary].
  rewrite (insert_insert_ne _ (py "summary") (py "error")) by key_ne.
  by rewrite insert_insert_eq.
Qed.

Lemma segment_ok_nil : segment_ok [].
Proof. unfold segment_ok. cbn. repeat split; lia. Qed.

Ltac count_prints :=
  repeat match goal with
  | Hp : forallb is_print ?p = true |- context [count ?f ?p] =>
      rewrite (count_prints f p (λ _, eq_refl) Hp)
  end.

Lemma summarize_article_trace (self : NewsSummarizer) (article : value) (s : State W) :
  ∃ r w seg, summarize_article self article s = (r, after s w seg) ∧ segment_ok seg.
Proof.
  destruct article as [ |b|n|f|t|l|a];
    try (eexists _, (world s), []; rewrite after_nil; split;
         [reflexivity|apply segment_ok_nil]).
  unfold summarize_article, py_get. unfold_run.
  fold (article_url a).
  destruct (truthy (article_url a)).
  2:{ eexists _, (world s), []. rewrite after_nil. split; [reflexivity|apply segment_ok_nil]. }
  destruct (extract_content_run self (article_url a) s)
    as (content & w1 & p1 & E1 & Hp1).
  rewrite E1. destruct content as [|c content]; cbn [nonempty].
  { eexists _, w1, _. split; [reflexivity|].
    unfold segment_ok. rewrite !count_cons. cbn. count_prints. repeat split; lia. }
  match type of E1 with _ = (_, ?st) => set (s1 := st) in * end.
  destruct (generate_summary_run self (c :: content) s1)
    as (summary & w2 & p2 & E2 & Hp2).
  rewrite E2. subst s1. rewrite after_after.
  assert (segment_ok
    ((Call_extract_content (article_url a)
      :: Outbound_get (article_url a) ∅ page_headers :: p1)
     ++ Call_generate_summary (c :: content)
        :: Outbound_generate (py "gemini-2.0-flash") (summary_prompt (c :: content))
        :: p2)) as Hseg.
  { unfold segment_ok. rewrite !count_app, !count_cons. cbn. count_prints.
    repeat split; lia. }
  destruct summary; cbn [nonempty]; eexists _, w2, _; split; (reflexivity || exact Hseg).
Qed.

(* ===================================================================== *)
(** ** The loop *)
(* ===================================================================== *)

Lemma pipeline_run_length self articles s vs s' :
  pipeline_run self articles s vs s' → length vs = length articles.
Proof. induction 1; simpl; congruence. Qed.

Lemma for_articles_dicts (self : NewsSummarizer) (articles : list (gmap pystr value))
    (results : list value) (s : State W) :
  ∃ vs s', pipeline_run self articles s vs s'
    ∧ for_articles self (map VDict articles) results s
      = (Ok (results ++ records articles vs), s').
Proof.
  revert results s. induction articles as [|a rest IH]; intros results s.
  - exists [], s. split; [constructor|]. simpl. unfold_run. by rewrite app_nil_r.
  - destruct (summarize_article_dict self a s) as (v & s1 & Hstep & E).
    destruct (IH (results ++ [VDict (summary_record a v)]) s1) as (vs & s2 & Hrun & E').
    exists (v :: vs), s2. split; [by econstructor|].
    cbn [map for_articles]. unfold_run. rewrite E, E'.
    unfold records. cbn [zip_with map]. by rewrite <- app_assoc.
Qed.

Lemma for_articles_trace (self : NewsSummarizer) (items results : list value)
    (s : State W) :
  ∃ r w segs,
    for_articles self items results s = (r, after s w (concat segs))
    ∧ Forall segment_ok segs
    ∧ (length segs ≤ length items)%nat
    ∧ (∀ out, r = Ok out →
         length segs = length items
         ∧ ∃ added, out = results ++ added ∧ length added = length items).
Proof.
  revert results s. induction items as [|item rest IH]; intros results s.
  - exists (Ok results), (world s), []. cbn [concat]. rewrite after_nil.
    split; [done|]. split; [constructor|]. split; [done|].
    intros out' [= <-]. split; [done|]. exists []. by rewrite app_nil_r.
  - destruct (summarize_article_trace self item s) as (r & w1 & seg & E & Hseg).
    cbn [for_articles]. unfold_run. rewrite E. destruct r as [rec|e].
    + destruct (IH (results ++ [rec]) (after s w1 seg))
        as (r' & w2 & segs & E' & Hsegs & Hlen & Hout).
      rewrite E'. rewrite after_after.
      exists r', w2, (seg :: segs).
      split; [done|]. split; [by constructor|]. split; [simpl; lia|].
      intros out' Hr. destruct (Hout _ Hr) as [Hl (added & -> & Hl')].
      split; [simpl; lia|].
      exists (rec :: added). rewrite <- app_assoc. split; [done|]. simpl. lia.
    + exists (Raise e), w1, [seg]. cbn [concat]. rewrite app_nil_r.
      split; [done|]. split; [by constructor|]. split; [simpl; lia|done].
Qed.






(* ===================================================================== *)
(** ** The handler *)
(* ===================================================================== *)

(** The object the constructor returns asks the news API at [news_url]
    with [news_params]. *)
Lemma init_fields (self : NewsSummarizer) :
  NewsSummarizer_init = Ok self →
  mediastack_url self = news_url ∧ mediastack_params self = news_params.
Proof.
  unfold NewsSummarizer_init.
  destruct (genai_Client (os_getenv (py "GEMINI_API_KEY"))); [|done].
  by intros [= <-].
Qed.

Lemma fetch_news_events (self : NewsSummarizer) (s : State W) :
  NewsSummarizer_init = Ok self →
  ∃ r w prints,
    fetch_news self s = (r, after s w (fetch_events prints))
    ∧ forallb is_print prints = true.
Proof.
  intros [Hurl Hparams]%init_fields.
  destruct (fetch_news_run self s) as (r & w & prints & Ef & Hp).
  rewrite Hurl, Hparams in Ef. by exists r, w, prints.
Qed.

(** When the constructor raises, lines 105-140 raise at once. *)
Lemma refresh_init_raised (s : State W) (e : exn) :
  NewsSummarizer_init = Raise e → refresh s = (Raise e, s).
Proof. intros Hinit. unfold refresh. unfold_run. by rewrite Hinit. Qed.

(** Lines 106-140 as a function of what [fetch_news] returned. *)
Lemma refresh_of_fetch (self : NewsSummarizer) (s : State W) (articles : value)
    (s1 : State W) :
  NewsSummarizer_init = Ok self →
  fetch_news self s = (Ok articles, s1) →
  refresh s =
    if negb (truthy articles) then (Ok not_found_response, s1)
    else match py_iter articles with
         | Ok items =>
             match for_articles self items [] s1 with
             | (Ok results, s2) =>
                 let (t, w) := time_time (world s2) in
                 (Ok (ok_response results), stored_state s2 w t results)
             | (Raise e, s2) => (Raise e, s2)
             end
         | Raise e => (Raise e, s1)
         end.
Proof.
  intros Hinit Hfetch. unfold refresh. unfold_run. rewrite Hinit, Hfetch.
  destruct (truthy articles); cbn [negb]; [|done].
  destruct (py_iter articles) as [items|e]; [|done].
  destruct (for_articles self items [] s1) as [[results|e] s2]; [|done].
  destruct (time_time (world s2)) as [t w]. unfold_run.
  unfold stored_state, ok_response. by rewrite <- app_assoc.
Qed.

Lemma refresh_run (self : NewsSummarizer) (s : State W) :
  NewsSummarizer_init = Ok self →
  ∃ r s', refresh s = (r, s') ∧ refresh_outcome self s r s'.
Proof.
  intros Hinit. unfold refresh. unfold_run. rewrite Hinit.
  destruct (fetch_news self s) as [[articles|e] s1] eqn:Ef.
  2:{ eexists _, _. split; [reflexivity|]. by constructor. }
  destruct (truthy articles) eqn:Et; cbn [negb].
  2:{ eexists _, _. split; [reflexivity|]. by econstructor. }
  destruct (py_iter articles) as [items|e] eqn:Ei.
  2:{ eexists _, _. split; [reflexivity|]. by eapply not_iterable. }
  destruct (for_articles self items [] s1) as [[results|e] s2] eqn:El.
  2:{ eexists _, _. split; [reflexivity|]. by eapply loop_raised. }
  destruct (time_time (world s2)) as [t w] eqn:Ec. unfold_run.
  eexists _, _. split; [|by eapply stored].
  unfold stored_state, ok_response. rewrite <- app_assoc. reflexivity.
Qed.

(** A request the cache cannot answer goes through lines 105-140. *)
Lemma get_summaries_of_miss (s : State W) (now : float) (w : W) :
  time_time (world s) = (now, w) →
  is_fresh (_summaries_cache s) now = false →
  get_summaries s = refresh (at_world s w).
Proof.
  intros Hclock Hstale. unfold get_summaries. unfold_run. rewrite Hclock. unfold_run.
  fold (at_world s w). unfold is_fresh in Hstale.
  destruct (data (_summaries_cache s)); [by rewrite Hstale|done].
Qed.

Lemma get_summaries_run (s : State W) :
  ∃ r s', get_summaries s = (r, s') ∧ handler_outcome s r s'.
Proof.
  destruct (time_time (world s)) as [now w] eqn:Ec.
  destruct (is_fresh (_summaries_cache s) now) eqn:Efresh.
  - unfold is_fresh in Efresh.
    destruct (data (_summaries_cache s)) as [stored_data|] eqn:Ed; [|done].
    exists (Ok (ok_response stored_data)), (at_world s w).
    split; [|by eapply served_from_cache].
    unfold get_summaries. unfold_run. rewrite Ec. unfold_run. by rewrite Ed, Efresh.
  - rewrite (get_summaries_of_miss s now w) by done.
    destruct NewsSummarizer_init as [self|e] eqn:Hinit.
    + destruct (refresh_run self (at_world s w) Hinit) as (r & s' & Er & Ho).
      exists r, s'. split; [done|]. by eapply recomputed.
    + exists (Raise e), (at_world s w).
      split; [by apply refresh_init_raised|]. by eapply constructor_raised.
Qed.

End Runs.

(* ===================================================================== *)
(** ** The records of the aggregation pipeline *)
(* ===================================================================== *)

Section Records.

Lemma summary_record_summary article v :
  summary_record article v !! py "summary" = Some (verdict_summary v).
Proof.
  unfold summary_record. rewrite lookup_insert_ne by key_ne. apply lookup_insert_eq.
Qed.

Lemma summary_record_error article v :
  summary_record article v !! py "error" = Some (verdict_error v).
Proof. unfold summary_record. apply lookup_insert_eq. Qed.

Lemma summary_record_field article v key shown :
  (key, shown) ∈ [(py "title", py "title"); (py "source", py "source");
                  (py "url", py "url"); (py "published_at", py "published")] →
  summary_record article v !! shown = Some (field article key).
Proof.
  intros Hin. unfold summary_record.
  repeat (apply elem_of_cons in Hin as [[= -> ->]|Hin];
    [repeat (rewrite lookup_insert_ne by key_ne); by rewrite lookup_insert_eq|]).
  by apply elem_of_nil in Hin.
Qed.

Lemma summary_record_passes article v key shown :
  (key, shown) ∈ [(py "title", py "title"); (py "source", py "source");
                  (py "url", py "url"); (py "published_at", py "published")] →
  passes_through article (summary_record article v) key shown.
Proof.
  intros Hin. unfold passes_through. rewrite (summary_record_field _ _ key) by done.
  unfold field. by destruct (article !! key).
Qed.

Lemma summary_record_metadata article v :
  metadata_kept article (VDict (summary_record article v)).
Proof.
  exists (summary_record article v). split; [done|].
  repeat split; apply summary_record_passes; set_solver.
Qed.

Lemma summary_record_verdict article v :
  verdict_shown v (VDict (summary_record article v)).
Proof.
  exists (summary_record article v). split; [done|].
  rewrite summary_record_summary, summary_record_error. by destruct v.
Qed.

Lemma summary_record_xor article v :
  summary_xor_error (VDict (summary_record article v)) = true.
Proof.
  unfold summary_xor_error.
  rewrite summary_record_summary, summary_record_error. by destruct v.
Qed.

Lemma records_length articles vs :
  length vs = length articles → length (records articles vs) = length articles.
Proof.
  intros Hl. unfold records. rewrite length_map, length_zip_with. lia.
Qed.

Lemma records_lookup articles vs i a v :
  articles !! i = Some a → vs !! i = Some v →
  records articles vs !! i = Some (VDict (summary_record a v)).
Proof.
  intros Ha Hv. unfold records.
  change (map VDict ?l) with (VDict <$> l).
  rewrite list_lookup_fmap, lookup_zip_with, Ha. simpl. by rewrite Hv.
Qed.

Lemma records_Forall (P : value → Prop) articles vs :
  (∀ a v, P (VDict (summary_record a v))) → Forall P (records articles vs).
Proof.
  intros HP. unfold records. apply Forall_map.
  revert vs. induction articles as [|a articles IH]; intros [|v vs]; simpl;
    constructor; [apply HP|apply IH].
Qed.

Lemma records_Forall2_articles (P : gmap pystr value → value → Prop) articles vs :
  length vs = length articles →
  (∀ a v, P a (VDict (summary_record a v))) → Forall2 P articles (records articles vs).
Proof.
  intros Hl HP. unfold records.
  revert vs Hl. induction articles as [|a articles IH]; intros [|v vs] Hl;
    simpl in *; try done; constructor; [apply HP|apply IH; lia].
Qed.

Lemma records_Forall2_verdicts (P : verdict → value → Prop) articles vs :
  length vs = length articles →
  (∀ a v, P v (VDict (summary_record a v))) → Forall2 P vs (records articles vs).
Proof.
  intros Hl HP. unfold records.
  revert vs Hl. induction articles as [|a articles IH]; intros [|v vs] Hl;
    simpl in *; try done; constructor; [apply HP|apply IH; lia].
Qed.

End Records.

(* ===================================================================== *)
(** ** Facts about the freshness test *)
(* ===================================================================== *)

Lemma SFcompare_swap (x y : spec_float) :
  SFcompare y x = option_map CompOpp (SFcompare x y).
Proof.
  destruct x as [sx|sx| |sx mx ex], y as [sy|sy| |sy my ey]; simpl;
    try reflexivity; try (by destruct sx); try (by destruct sy);
    try (by destruct sx, sy).
  destruct sx, sy; simpl; try reflexivity;
    rewrite (Z.compare_antisym ex ey); destruct (ex ?= ey)%Z; simpl;
    try reflexivity; repeat f_equal;
    change (Pos.compare_cont Eq my mx) with (my ?= mx)%positive;
    change (Pos.compare_cont Eq mx my) with (mx ?= my)%positive;
    apply Pos.compare_antisym.
Qed.

Lemma leb_not_ltb (x y : float) :
  PrimFloat.leb x y = true → PrimFloat.ltb y x = false.
Proof.
  rewrite leb_spec, ltb_spec. unfold SFleb, SFltb.
  rewrite (SFcompare_swap (Prim2SF x) (Prim2SF y)).
  by destruct (SFcompare (Prim2SF x) (Prim2SF y)) as [[]|].
Qed.

(** A cache that is STALE fails the test of line 102. *)
Lemma stale_is_not_fresh (c : Cache) (now : float) :
  stale c now → is_fresh c now = false.
Proof.
  unfold stale, is_fresh. intros [->|Hage]; [done|].
  destruct (data c); [by apply leb_not_ltb|done].
Qed.

(* ===================================================================== *)
(** ** The records of any run *)
(* ===================================================================== *)

Section RecordsOfRuns.
Context {W : Type} `{External W}.

Lemma summarize_article_xor (self : NewsSummarizer) (item r : value) (s s' : State W) :
  summarize_article self item s = (Ok r, s') → summary_xor_error r = true.
Proof.
  destruct item as [ |b|n|f|t|l|a]; try discriminate.
  destruct (summarize_article_dict self a s) as (v & s1 & _ & E).
  rewrite E. intros [= <- _]. apply summary_record_xor.
Qed.

Lemma for_articles_xor (self : NewsSummarizer) (items results out : list value)
    (s s' : State W) :
  for_articles self items results s = (Ok out, s') →
  Forall (λ r, summary_xor_error r = true) results →
  Forall (λ r, summary_xor_error r = true) out.
Proof.
  revert results s. induction items as [|item rest IH]; intros results s.
  - cbn [for_articles]. unfold_run. by intros [= <- _].
  - cbn [for_articles]. unfold_run.
    destruct (summarize_article self item s) as [[r|e] s1] eqn:E; [|discriminate].
    intros Hrest Hres. apply (IH _ _ Hrest). apply Forall_app. split; [done|].
    constructor; [|done]. by eapply summarize_article_xor.
Qed.

End RecordsOfRuns.

(* ===================================================================== *)
(** ** The properties of the specification: the pipeline *)
(* ===================================================================== *)

Section Pipeline.
Context {W : Type} `{External W}.

(** C5. The loop returns one record per article, in the order of the
    articles; the record of an article is decided by the first of the four
    steps that applies (no URL, no content, no summary, summary), and a
    failed article does not stop the loop: the result is always the full
    list. *)
Theorem one_record_per_article_in_order (self : NewsSummarizer)
    (articles : list (gmap pystr value)) (s : State W) :
  ∃ vs s',
    for_articles self (map VDict articles) [] s = (Ok (records articles vs), s')
    ∧ pipeline_run self articles s vs s'
    ∧ length vs = length articles
    ∧ length (records articles vs) = length articles
    ∧ ∀ i a, articles !! i = Some a →
        ∃ v, vs !! i = Some v
          ∧ records articles vs !! i = Some (VDict (summary_record a v))
          ∧ verdict_shown v (VDict (summary_record a v)).
Proof.
  destruct (for_articles_dicts self articles [] s) as (vs & s' & Hrun & E).
  pose proof (pipeline_run_length _ _ _ _ _ Hrun) as Hl.
  exists vs, s'. repeat split; [done|done|done|by apply records_length|].
  intros i a Ha.
  destruct (lookup_lt_is_Some_2 vs i) as [v Hv].
  { rewrite Hl. by eapply lookup_lt_Some. }
  exists v. split; [done|]. split; [by apply records_lookup|].
  apply summary_record_verdict.
Qed.

(** C9. In the record of an article, title, source, url and published are
    the article's values for title, source, url and published_at when the
    article has the key, a null included, and 'N/A' when it has not. *)
Theorem metadata_fields_pass_through (self : NewsSummarizer)
    (articles : list (gmap pystr value)) (s : State W) :
  ∃ results s',
    for_articles self (map VDict articles) [] s = (Ok results, s')
    ∧ Forall2 metadata_kept articles results.
Proof.
  destruct (for_articles_dicts self articles [] s) as (vs & s' & Hrun & E).
  pose proof (pipeline_run_length _ _ _ _ _ Hrun) as Hl.
  exists (records articles vs), s'. split; [exact E|].
  apply records_Forall2_articles; [done|]. intros a v. apply summary_record_metadata.
Qed.

(** C10. An article whose url is there but falsy (null, the empty string)
    gets the record of the 'no URL' branch, and the state after it is the
    state before it: nothing was called and nothing was sent. *)
Theorem falsy_url_takes_no_url_branch (self : NewsSummarizer)
    (article : gmap pystr value) (v : value) (s : State W) :
  article !! py "url" = Some v →
  truthy v = false →
  ∃ record,
    summarize_article self (VDict article) s = (Ok (VDict record), s)
    ∧ record !! py "summary" = Some VNone
    ∧ record !! py "error" = Some (VStr (py "No URL available for article."))
    ∧ record !! py "url" = Some v.
Proof.
  intros Hurl Hfalsy.
  destruct (summarize_article_dict self article s) as (vd & s' & Hstep & E).
  assert (article_url article = v) as Hv by (unfold article_url; by rewrite Hurl).
  inversion Hstep as [Ht|s1 Ht|content s1 s2 Ht|content summary s1 s2 Ht]; subst;
    try congruence.
  exists (summary_record article NoUrl). split; [exact E|].
  rewrite summary_record_summary, summary_record_error.
  repeat split. rewrite (summary_record_field _ _ (py "url")) by set_solver.
  unfold field. by rewrite Hurl.
Qed.

(** C7, as the code has it. The text of a page that was fetched and parsed
    is the text outside its script, style and anchor elements, with every
    line and every phrase between double spaces stripped, the empty ones
    dropped and the rest joined by single spaces. So it holds no line
    boundary, no two spaces in a row, and neither starts nor ends with
    white space; white space other than that (a tab, a tab next to a
    space) stays where it was inside a phrase. *)
Theorem extracted_text_is_cleaned (self : NewsSummarizer) (url : value) (s : State W)
    (response : Response) (w : W) (doc : soup) :
  requests_get url ∅ page_headers (world s) = (Ok response, w) →
  ((400 <=? status_code response) && (status_code response <? 600))%Z = false →
  html_parser (text response) = Ok doc →
  ∃ content,
    extract_content self url s =
      (Ok content, after s w [Call_extract_content url; Outbound_get url ∅ page_headers])
    ∧ content = clean_text (document_text_without [py "script"; py "style"; py "a"] doc)
    ∧ has_adjacent is_space_char content = false
    ∧ existsb is_linebreak content = false
    ∧ starts_with_space content = false
    ∧ ends_with_space content = false.
Proof.
  intros Hget Hstatus Hparse.
  rewrite (extract_content_success self url s response w doc) by done.
  rewrite decompose_all_text.
  eexists. split; [reflexivity|]. split; [reflexivity|].
  destruct (clean_text_shape (document_text_without [py "script"; py "style"; py "a"] doc))
    as (Ha & Hl & Hs & He).
  repeat split; try done.
  apply not_true_iff_false. intros (c & Hc & Hb)%existsb_exists.
  rewrite Forall_forall in Hl. apply list_elem_of_In, Hl in Hc. congruence.
Qed.

End Pipeline.

(* ===================================================================== *)
(** ** The properties of the specification: the cache and the endpoint *)
(* ===================================================================== *)

Section Handler.
Context {W : Type} `{External W}.

Lemma truthy_iter_nonempty (articles : value) (items : list value) :
  truthy articles = true → py_iter articles = Ok items → items ≠ [].
Proof.
  destruct articles as [ |b|n|f|t|l|d]; simpl; try done.
  - intros Ht [= <-]. by destruct t.
  - intros Ht [= <-]. by destruct l.
  - intros Ht [= <-]. by destruct (map_to_list d).
Qed.

Lemma segments_no_fetch (segs : list (list event)) :
  Forall segment_ok segs →
  count is_fetch_call (concat segs) = 0%nat ∧ count is_cache_write (concat segs) = 0%nat.
Proof.
  induction 1 as [|seg segs (Hf & _ & _ & _ & Hc) _ [IHf IHc]]; [done|].
  cbn [concat]. rewrite !count_app. lia.
Qed.

(** The trace and the cache after lines 106-140, whichever way they went. *)
Lemma refresh_shape (self : NewsSummarizer) (s : State W) (r : result HttpResponse)
    (s' : State W) :
  NewsSummarizer_init = Ok self →
  refresh_outcome self s r s' →
  ∃ prints segs stores,
    trace s' = trace s ++ fetch_events prints ++ concat segs ++ stores
    ∧ forallb is_print prints = true
    ∧ Forall segment_ok segs
    ∧ (∀ articles s1 items,
         fetch_news self s = (Ok articles, s1) →
         py_iter articles = Ok items → (length segs ≤ length items)%nat)
    ∧ ((stores = [] ∧ _summaries_cache s' = _summaries_cache s
        ∧ (r = Ok not_found_response ∨ ∃ e, r = Raise e))
       ∨ (∃ t results s2,
            stores = [CacheWrite {| timestamp := t; data := data (_summaries_cache s) |};
                      CacheWrite {| timestamp := t; data := Some results |}]
            ∧ _summaries_cache s' = {| timestamp := t; data := Some results |}
            ∧ r = Ok (ok_response results)
            ∧ time_time (world s2) = (t, world s')
            ∧ length results = length segs
            ∧ results ≠ [])).
Proof.
  intros Hinit.
  destruct (fetch_news_events self s Hinit) as (r0 & w1 & prints & Ef & Hp).
  intros Ho.
  inversion Ho as [e s1 Ef'|articles s1 Ef' Ht|articles e s1 Ef' Ht Hi
                  |articles items e s1 s2 Ef' Ht Hi El
                  |articles items results s1 s2 t w Ef' Ht Hi El Ec]; subst;
    rewrite Ef in Ef'; injection Ef' as -> <-.
  - exists prints, [], []. cbn [concat]. rewrite !app_nil_r.
    split; [done|]. split; [done|]. split; [constructor|].
    split; [|left; eauto]. intros ? ? ? Ef'. rewrite Ef in Ef'. done.
  - exists prints, [], []. cbn [concat]. rewrite !app_nil_r.
    split; [done|]. split; [done|]. split; [constructor|].
    split; [|left; eauto]. intros; simpl; lia.
  - exists prints, [], []. cbn [concat]. rewrite !app_nil_r.
    split; [done|]. split; [done|]. split; [constructor|].
    split; [|left; eauto]. intros; simpl; lia.
  - destruct (for_articles_trace self items []
                (after s w1 (fetch_events prints)))
      as (r1 & w2 & segs & El' & Hsegs & Hlen & _).
    rewrite El in El'. injection El' as <- ->.
    exists prints, segs, []. rewrite after_after, app_nil_r.
    split; [done|]. split; [done|]. split; [done|].
    split; [|left; eauto].
    intros ? ? ? Ef' Hi'. rewrite Ef in Ef'. injection Ef' as <- <-.
    rewrite Hi in Hi'. by injection Hi' as <-.
  - destruct (for_articles_trace self items []
                (after s w1 (fetch_events prints)))
      as (r1 & w2 & segs & El' & Hsegs & Hlen & Hout).
    rewrite El in El'. injection El' as <- ->.
    destruct (Hout results eq_refl) as (Hl & added & Hadd & Hl'). simpl in Hadd. subst added.
    exists prints, segs,
      [CacheWrite {| timestamp := t; data := data (_summaries_cache s) |};
       CacheWrite {| timestamp := t; data := Some results |}].
    rewrite after_after in *.
    unfold stored_state. cbn [world _summaries_cache trace after] in *.
    split; [by rewrite <- !app_assoc|].
    split; [done|]. split; [done|]. split.
    + intros ? ? ? Ef' Hi'. rewrite Ef in Ef'. injection Ef' as <- <-.
      rewrite Hi in Hi'. by injection Hi' as <-.
    + right. exists t, results, (after s w2 (fetch_events prints ++ concat segs)).
      split; [done|]. split; [done|]. split; [done|]. split; [done|]. split; [lia|].
      pose proof (truthy_iter_nonempty _ _ Ht Hi). destruct results, items; simpl in *; done.
Qed.

Lemma count_fetch_events p (prints : list event) :
  (∀ line, p (Print line) = false) → forallb is_print prints = true →
  count p (fetch_events prints)
  = ((if p Call_fetch_news then 1 else 0)
     + (if p (Outbound_get (VStr news_url) news_params ∅) then 1 else 0))%nat.
Proof.
  intros Hp Hprints. unfold fetch_events. rewrite !count_cons.
  rewrite (count_prints p prints Hp Hprints). lia.
Qed.

(** A response with status 200 carries the list the cache holds afterwards. *)
Lemma ok_response_is_cached (p : State W) (previous : HttpResponse) (p' : State W) :
  handler_outcome p (Ok previous) p' → status previous = 200%Z →
  ∃ results, previous = ok_response results
    ∧ data (_summaries_cache p') = Some results.
Proof.
  intros Ho Hst.
  inversion Ho as [now w stored_data Hc Hd Hf| |now w self r s' Hc Hf Hinit Hr]; subst.
  - by exists stored_data.
  - destruct (refresh_shape _ _ _ _ Hinit Hr)
      as (prints & segs & stores & _ & _ & _ & _ & Hcases).
    destruct Hcases as [(_ & _ & [[= ->]|[e [=]]])|(t & results & s2 & _ & Hcache & [= ->] & _)].
    + done.
    + exists results. by rewrite Hcache.
Qed.

(** C2. While the cache holds data younger than the TTL, the handler
    answers with the stored list and status 200, reads the clock and does
    nothing else: the trace and the cache are as they were, so neither one
    of the three methods was called nor any request sent. The answer is the
    answer of the request that left this list in the cache. *)
Theorem fresh_cache_is_served (s : State W) (now : float) (w : W)
    (stored_data : list value) :
  time_time (world s) = (now, w) →
  data (_summaries_cache s) = Some stored_data →
  PrimFloat.ltb (PrimFloat.sub now (timestamp (_summaries_cache s))) CACHE_TTL = true →
  get_summaries s = (Ok (ok_response stored_data), at_world s w)
  ∧ trace (at_world s w) = trace s
  ∧ _summaries_cache (at_world s w) = _summaries_cache s
  ∧ ∀ p previous p',
      get_summaries p = (Ok previous, p') →
      status previous = 200%Z →
      _summaries_cache p' = _summaries_cache s →
      get_summaries s = (Ok previous, at_world s w).
Proof.
  intros Hclock Hdata Hfresh.
  assert (get_summaries s = (Ok (ok_response stored_data), at_world s w)) as Hrun.
  { unfold get_summaries. unfold_run. rewrite Hclock. unfold_run.
    by rewrite Hdata, Hfresh. }
  split; [exact Hrun|]. split; [done|]. split; [done|].
  intros p previous p' Hp Hst Hcache.
  destruct (get_summaries_run p) as (r & q & Hp' & Ho).
  rewrite Hp in Hp'. injection Hp' as <- <-.
  destruct (ok_response_is_cached _ _ _ Ho Hst) as (results & -> & Hd).
  rewrite Hcache, Hdata in Hd. injection Hd as <-. exact Hrun.
Qed.



(** C4. When the cache cannot answer and [fetch_news], called on the
    summarizer line 105 built, returns the empty list, the answer is 404
    with the message, and the cache is the cache of before: nothing was
    assigned to it. No run of the handler ever leaves an empty list in the
    cache that was not there before. *)
Theorem empty_fetch_is_not_found (self : NewsSummarizer) (s : State W)
    (now : float) (w : W) (s1 : State W) :
  time_time (world s) = (now, w) →
  is_fresh (_summaries_cache s) now = false →
  NewsSummarizer_init = Ok self →
  fetch_news self (at_world s w) = (Ok (VList []), s1) →
  get_summaries s = (Ok not_found_response, s1)
  ∧ status not_found_response = 404%Z
  ∧ body not_found_response
    = jsonify (VDict (<[py "message" := VStr (py "No articles found.")]> ∅))
  ∧ _summaries_cache s1 = _summaries_cache s
  ∧ count is_cache_write (trace s1) = count is_cache_write (trace s)
  ∧ ∀ p r p',
      get_summaries p = (r, p') →
      data (_summaries_cache p') = Some [] →
      _summaries_cache p' = _summaries_cache p.
Proof.
  intros Hclock Hstale Hinit Hfetch.
  split.
  { rewrite (get_summaries_of_miss s now w) by done.
    by rewrite (refresh_of_fetch self _ _ _ Hinit Hfetch). }
  split; [done|]. split; [done|].
  destruct (fetch_news_events self (at_world s w) Hinit)
    as (r0 & w1 & prints & Ef & Hp).
  rewrite Hfetch in Ef. injection Ef as <- ->.
  split; [done|]. split.
  { cbn [trace after at_world].
    rewrite count_app, count_fetch_events by done. simpl. lia. }
  intros p r p' Hrun Hempty.
  destruct (get_summaries_run p) as (r' & q & Hrun' & Ho).
  rewrite Hrun in Hrun'. injection Hrun' as <- <-.
  inversion Ho as [now' w' stored_data Hc Hd Hf|now' w' e Hc Hf Hi
                  |now' w' self' r' s'' Hc Hf Hi Hr]; subst; [done|done|].
  destruct (refresh_shape _ _ _ _ Hi Hr) as (? & ? & ? & _ & _ & _ & _ & Hcases).
  destruct Hcases as [(_ & Hcache & _)|(t & results & s2 & _ & Hcache & _ & _ & _ & Hne)].
  - exact Hcache.
  - rewrite Hcache in Hempty. simpl in Hempty. congruence.
Qed.

(** C8, as the code has it. The handler assigns to the cache only after
    every call of the run has been made, and then twice: first the new
    timestamp, which stands next to the old data until the second
    assignment puts the complete new list there. The data is at every point
    the old list or the complete new one, and when the handler returns the
    cache holds the new timestamp with the new list, which is the list of
    the response. *)
Theorem cache_is_written_after_the_full_pass (s : State W) :
  ∃ r s' calls stores,
    get_summaries s = (r, s')
    ∧ trace s' = trace s ++ calls ++ stores
    ∧ count is_cache_write calls = 0%nat
    ∧ ((stores = [] ∧ _summaries_cache s' = _summaries_cache s)
       ∨ ∃ t results,
           stores = [CacheWrite {| timestamp := t; data := data (_summaries_cache s) |};
                     CacheWrite {| timestamp := t; data := Some results |}]
           ∧ _summaries_cache s' = {| timestamp := t; data := Some results |}
           ∧ r = Ok (ok_response results)).
Proof.
  destruct (get_summaries_run s) as (r & s' & Hrun & Ho).
  exists r, s'.
  inversion Ho as [now w stored_data Hc Hd Hf|now w e Hc Hf Hi
                  |now w self r' s'' Hc Hf Hi Hr]; subst.
  - exists [], []. rewrite !app_nil_r. repeat split; try done. by left.
  - exists [], []. rewrite !app_nil_r. repeat split; try done. by left.
  - destruct (refresh_shape _ _ _ _ Hi Hr)
      as (prints & segs & stores & Htrace & Hprints & Hsegs & _ & Hcases).
    exists (fetch_events prints ++ concat segs), stores.
    split; [done|]. split; [by rewrite <- app_assoc|]. split.
    { rewrite count_app, count_fetch_events by done.
      by destruct (segments_no_fetch _ Hsegs) as [_ ->]. }
    destruct Hcases as [(-> & Hcache & _)|(t & results & s2 & -> & Hcache & -> & _)].
    + by left.
    + right. by exists t, results.
Qed.

(** Lines 106-140 leave in the cache, and answer with, lists of records
    that each have exactly one of summary and error. *)
Lemma refresh_records_ok (self : NewsSummarizer) (s : State W)
    (r : result HttpResponse) (s' : State W) :
  NewsSummarizer_init = Ok self →
  refresh_outcome self s r s' →
  cache_records_ok (_summaries_cache s) →
  cache_records_ok (_summaries_cache s')
  ∧ ∀ response, r = Ok response → status response = 200%Z →
      ∃ results, response = ok_response results
        ∧ Forall (λ r, summary_xor_error r = true) results.
Proof.
  intros Hinit Ho Hok.
  destruct (refresh_shape _ _ _ _ Hinit Ho) as (? & ? & ? & _ & _ & _ & _ & Hcases).
  inversion Ho as [e s1 Ef|articles s1 Ef Ht|articles e s1 Ef Ht Hi
                  |articles items e s1 s2 Ef Ht Hi El
                  |articles items results s1 s2 t w Ef Ht Hi El Ec]; subst.
  5:{ pose proof (for_articles_xor _ _ _ _ _ _ El ltac:(constructor)) as Hxor.
      split; [exact Hxor|]. intros response [= <-] _. by exists results. }
  all: destruct Hcases as [(_ & -> & _)|(? & ? & ? & _ & _ & [=] & _)];
    (split; [exact Hok|]); intros response [= <-]; done.
Qed.

(** C1. Whatever the articles are and whatever the extractor and the
    summarizer answer, the loop returns one record per article, and in each
    record exactly one of ['summary'] and ['error'] is not [None]: an article
    that was summarized shows the summary and no error, and each of the
    three failures (no URL, no content, no summary) shows an error and no
    summary. The same holds of every list the loop returns for items of any
    kind, and so of every list the handler stores and answers with. *)
Theorem exactly_one_of_summary_and_error (self : NewsSummarizer)
    (articles : list (gmap pystr value)) (s : State W) :
  (∃ vs s',
     for_articles self (map VDict articles) [] s = (Ok (records articles vs), s')
     ∧ pipeline_run self articles s vs s'
     ∧ length (records articles vs) = length articles
     ∧ Forall (λ r, summary_xor_error r = true) (records articles vs)
     ∧ Forall2 verdict_shown vs (records articles vs))
  ∧ (∀ items out s0 s1,
       for_articles self items [] s0 = (Ok out, s1) →
       Forall (λ r, summary_xor_error r = true) out)
  ∧ (∀ s0 r s1,
       get_summaries s0 = (r, s1) →
       cache_records_ok (_summaries_cache s0) →
       cache_records_ok (_summaries_cache s1)
       ∧ ∀ response, r = Ok response → status response = 200%Z →
           ∃ results, response = ok_response results
             ∧ Forall (λ r, summary_xor_error r = true) results).
Proof.
  split; [|split].
  - destruct (for_articles_dicts self articles [] s) as (vs & s' & Hrun & E).
    pose proof (pipeline_run_length _ _ _ _ _ Hrun) as Hl.
    exists vs, s'. split; [exact E|]. split; [exact Hrun|].
    split; [by apply records_length|].
    split.
    + apply records_Forall. intros a v. apply summary_record_xor.
    + apply records_Forall2_verdicts; [done|]. intros a v. apply summary_record_verdict.
  - intros items out s0 s1 E. by eapply for_articles_xor.
  - intros s0 r s1 Hrun Hok.
    destruct (get_summaries_run s0) as (r' & q & Hrun' & Ho).
    rewrite Hrun in Hrun'. injection Hrun' as <- <-.
    inversion Ho as [now w stored_data Hc Hd Hf|now w e Hc Hf Hi
                    |now w self' r' s'' Hc Hf Hi Hr]; subst.
    + split; [exact Hok|]. intros response [= <-] _. exists stored_data.
      split; [done|]. unfold cache_records_ok in Hok. by rewrite Hd in Hok.
    + split; [exact Hok|]. intros response [=].
    + by apply (refresh_records_ok _ _ _ _ Hi Hr).
Qed.

End Handler.

(* ===================================================================== *)
(** ** Further properties: cleaning a text *)
(* ===================================================================== *)

Section MoreStrings.

Lemma linebreak_isspace (c : N) : is_linebreak c = true → isspace c = true.
Proof.
  unfold is_linebreak, isspace. intros Hc.
  repeat (apply orb_true_iff in Hc as [Hc|Hc]);
    try (apply andb_true_iff in Hc as [H1 H2];
         apply N.leb_le in H1; apply N.leb_le in H2);
    try (apply N.eqb_eq in Hc; subst c; reflexivity).
  - assert (c = 10 ∨ c = 11 ∨ c = 12 ∨ c = 13) as Hd by lia.
    destruct Hd as [->|[->|[->| ->]]]; reflexivity.
  - assert (c = 28 ∨ c = 29 ∨ c = 30) as Hd by lia.
    destruct Hd as [->|[->| ->]]; reflexivity.
Qed.

Lemma lstrip_id (s : pystr) : starts_with_space s = false → lstrip s = s.
Proof. destruct s as [|c s]; simpl; [done|]. by intros ->. Qed.

Lemma strip_id (s : pystr) :
  starts_with_space s = false → ends_with_space s = false → strip s = s.
Proof.
  intros Hs He. unfold strip, rstrip. rewrite (lstrip_id s Hs).
  unfold ends_with_space in He. rewrite (lstrip_id _ He). apply rev_involutive.
Qed.

Lemma splitlines_from_one (s cur : pystr) :
  Forall (λ c, is_linebreak c = false) s →
  splitlines_from cur s = match rev cur ++ s with [] => [] | _ => [rev cur ++ s] end.
Proof.
  revert cur. induction s as [|c s IH]; intros cur Hs.
  - simpl. rewrite app_nil_r. destruct cur as [|a cur]; [done|].
    destruct (rev (a :: cur)) eqn:E; [|done].
    apply (f_equal (@length N)) in E. rewrite length_rev in E. done.
  - apply Forall_cons in Hs as [Hc Hs]. cbn [splitlines_from]. rewrite Hc.
    rewrite (IH (c :: cur) Hs). cbn [rev]. by rewrite <- app_assoc.
Qed.

Lemma splitlines_one (s : pystr) :
  Forall (λ c, is_linebreak c = false) s → s ≠ [] → splitlines s = [s].
Proof.
  intros Hs Hne. unfold splitlines. rewrite splitlines_from_one by done.
  simpl. by destruct s.
Qed.

Lemma split_2sp_one (s : pystr) :
  has_adjacent is_space_char s = false → split_2sp s = [s].
Proof.
  induction s as [|c s IH]; [done|].
  destruct s as [|d s]; [done|].
  change (has_adjacent is_space_char (c :: d :: s))
    with ((is_space_char c && is_space_char d) || has_adjacent is_space_char (d :: s)).
  intros [Hcd Hrest]%orb_false_iff.
  rewrite split_2sp_step, Hcd, (IH Hrest). reflexivity.
Qed.

(** X1. Cleaning a text that is already clean changes nothing. *)
Theorem clean_text_idempotent (text : pystr) :
  clean_text (clean_text text) = clean_text text.
Proof.
  destruct (clean_text_shape text) as (Ha & Hl & Hs & He).
  destruct (clean_text text) as [|c r] eqn:E; [reflexivity|].
  unfold clean_text. rewrite splitlines_one by done.
  cbn [map flat_map]. rewrite (strip_id _ Hs He), (split_2sp_one _ Ha).
  cbn [map]. rewrite (strip_id _ Hs He). reflexivity.
Qed.

Lemma lstrip_blank (s : pystr) : forallb isspace s = true → lstrip s = [].
Proof.
  induction s as [|c s IH]; simpl; [done|].
  intros [Hc Hs]%andb_true_iff. rewrite Hc. by apply IH.
Qed.

Lemma strip_blank (s : pystr) : forallb isspace s = true → strip s = [].
Proof. intros Hs. unfold strip. by rewrite (lstrip_blank s Hs). Qed.

Lemma splitlines_from_all (P : N → Prop) (s cur : pystr) :
  Forall P cur → Forall P s → Forall (Forall P) (splitlines_from cur s).
Proof.
  assert (∀ n (t cur : pystr), (length t ≤ n)%nat → Forall P cur → Forall P t →
    Forall (Forall P) (splitlines_from cur t)) as Hn.
  { clear. induction n as [|n IH]; intros t cur Hl Hcur Ht.
    - destruct t; [|simpl in Hl; lia]. simpl. destruct cur; [done|].
      constructor; [|done]. by apply Forall_rev.
    - destruct t as [|c t].
      + simpl. destruct cur; [done|]. constructor; [|done]. by apply Forall_rev.
      + apply Forall_cons in Ht as [Hc Ht]. cbn [splitlines_from].
        destruct (is_linebreak c).
        * constructor; [by apply Forall_rev|].
          destruct t as [|d t]; [by apply IH; [simpl; lia|..]|].
          destruct ((c =? CR) && (d =? LF)).
          -- apply IH; [simpl in *; lia|done|]. by apply Forall_cons in Ht as [_ Ht].
          -- apply IH; [simpl in *; lia|done|done].
        * apply IH; [simpl in *; lia| |done]. by constructor. }
  intros. by apply (Hn (length s)).
Qed.

Lemma blank_chunks (lines : list pystr) :
  Forall (λ line, line = []) lines →
  List.filter nonempty (flat_map (λ line, map strip (split_2sp line)) lines) = [].
Proof. induction 1 as [|line lines -> _ IH]; [done|]. simpl. exact IH. Qed.

(** A text of white space only is cleaned to the empty string. *)
Lemma clean_text_blank (text : pystr) :
  forallb isspace text = true → clean_text text = [].
Proof.
  intros Hb. unfold clean_text. rewrite blank_chunks; [done|].
  apply Forall_map. pose proof (proj1 (forallb_forall _ _) Hb) as Hb'.
  pose proof (splitlines_from_all (λ c, isspace c = true) text []
                ltac:(constructor)) as Hall.
  eapply Forall_impl; [apply Hall|].
  - apply Forall_forall. intros c Hc. apply Hb'. by apply list_elem_of_In.
  - intros line Hline. apply strip_blank, forallb_forall.
    intros c Hc. rewrite Forall_forall in Hline. apply Hline. by apply list_elem_of_In.
Qed.

Lemma lstrip_keeps (c : N) (s : pystr) :
  c ∈ s → isspace c = false → c ∈ lstrip s.
Proof.
  induction s as [|a s IH]; [done|]. intros Hin Hc. simpl.
  destruct (isspace a) eqn:Ea; [|done].
  apply elem_of_cons in Hin as [->|Hin]; [congruence|]. by apply IH.
Qed.

Lemma strip_keeps (c : N) (s : pystr) :
  c ∈ s → isspace c = false → c ∈ strip s.
Proof.
  intros Hin Hc. unfold strip, rstrip.
  apply list_elem_of_In, in_rev. rewrite rev_involutive. apply list_elem_of_In.
  apply lstrip_keeps; [|done]. apply list_elem_of_In, in_rev.
  rewrite rev_involutive. apply list_elem_of_In. by apply lstrip_keeps.
Qed.

Lemma push_front_elem (c x : N) (pieces : list pystr) :
  (x = c ∨ ∃ p, p ∈ pieces ∧ x ∈ p) → ∃ p, p ∈ push_front c pieces ∧ x ∈ p.
Proof.
  destruct pieces as [|q qs]; simpl.
  - intros [->|(p & Hp & _)]; [|by apply elem_of_nil in Hp].
    exists [c]. split; apply list_elem_of_here.
  - intros [->|(p & Hp & Hx)].
    + exists (c :: q). split; apply list_elem_of_here.
    + apply elem_of_cons in Hp as [->|Hp].
      * exists (c :: q). split; [apply list_elem_of_here|by apply list_elem_of_further].
      * exists p. split; [by apply list_elem_of_further|done].
Qed.

Lemma split_2sp_keeps (x : N) (s : pystr) :
  x ∈ s → is_space_char x = false → ∃ p, p ∈ split_2sp s ∧ x ∈ p.
Proof.
  assert (∀ n (t : pystr), (length t ≤ n)%nat → x ∈ t → is_space_char x = false →
    ∃ p, p ∈ split_2sp t ∧ x ∈ p) as Hn.
  { induction n as [|n IH]; intros t Hl Hin Hx.
    - destruct t; [by apply elem_of_nil in Hin|simpl in Hl; lia].
    - destruct t as [|c [|d t]]; [by apply elem_of_nil in Hin| |].
      + exists [c]. split; [apply list_elem_of_here|done].
      + rewrite split_2sp_step.
        destruct (is_space_char c && is_space_char d) eqn:E.
        * apply andb_true_iff in E as [Ec Ed].
          apply elem_of_cons in Hin as [->|Hin]; [congruence|].
          apply elem_of_cons in Hin as [->|Hin]; [congruence|].
          destruct (IH t ltac:(simpl in *; lia) Hin Hx) as (p & Hp & Hxp).
          exists p. split; [by apply list_elem_of_further|done].
        * apply push_front_elem.
          apply elem_of_cons in Hin as [->|Hin]; [by left|]. right.
          apply (IH (d :: t)); [simpl in *; lia|done|done]. }
  by apply (Hn (length s)).
Qed.

Lemma splitlines_from_keeps (x : N) (s cur : pystr) :
  x ∈ cur ∨ x ∈ s → is_linebreak x = false →
  ∃ line, line ∈ splitlines_from cur s ∧ x ∈ line.
Proof.
  assert (∀ n (t cur : pystr), (length t ≤ n)%nat → x ∈ cur ∨ x ∈ t →
    is_linebreak x = false → ∃ line, line ∈ splitlines_from cur t ∧ x ∈ line) as Hn.
  { assert (∀ l : pystr, x ∈ l → x ∈ rev l) as Hrev.
    { intros l Hc. apply list_elem_of_In. rewrite <- in_rev. by apply list_elem_of_In. }
    clear s cur. induction n as [|n IH]; intros t cur Hl Hin Hx.
    - destruct t; [|simpl in Hl; lia]. destruct Hin as [Hin|Hin];
        [|by apply elem_of_nil in Hin].
      simpl. destruct cur as [|a cur]; [by apply elem_of_nil in Hin|].
      exists (rev (a :: cur)). split; [apply list_elem_of_here|by apply Hrev].
    - destruct t as [|c t].
      + destruct Hin as [Hin|Hin]; [|by apply elem_of_nil in Hin].
        simpl. destruct cur as [|a cur]; [by apply elem_of_nil in Hin|].
        exists (rev (a :: cur)). split; [apply list_elem_of_here|by apply Hrev].
      + cbn [splitlines_from]. destruct (is_linebreak c) eqn:Ec.
        * destruct Hin as [Hin|Hin].
          { exists (rev cur). split; [apply list_elem_of_here|by apply Hrev]. }
          apply elem_of_cons in Hin as [->|Hin]; [congruence|].
          assert (∃ line, line ∈ match t with
                    | d :: rest' =>
                        if (c =? CR) && (d =? LF) then splitlines_from [] rest'
                        else splitlines_from [] t
                    | [] => splitlines_from [] t
                    end ∧ x ∈ line) as (line & Hline & Hxl).
          { destruct t as [|d t]; [by apply elem_of_nil in Hin|].
            destruct ((c =? CR) && (d =? LF)) eqn:Ecd.
            - apply andb_true_iff in Ecd as [_ Ed%N.eqb_eq]. subst d.
              apply elem_of_cons in Hin as [->|Hin]; [done|].
              apply IH; [simpl in *; lia|by right|done].
            - apply IH; [simpl in *; lia|by right|done]. }
          exists line. split; [by apply list_elem_of_further|done].
        * apply IH; [simpl in *; lia| |done].
          destruct Hin as [Hin|Hin]; [left; by apply list_elem_of_further|].
          apply elem_of_cons in Hin as [->|Hin]; [left; apply list_elem_of_here|by right]. }
  intros. by apply (Hn (length s)).
Qed.

Lemma join_nonempty (sep : pystr) (pieces : list pystr) (p : pystr) :
  p ∈ pieces → p ≠ [] → join sep pieces ≠ [].
Proof.
  induction pieces as [|q qs IH]; [by intros ?%elem_of_nil|].
  intros Hin Hne. cbn [join]. destruct qs as [|q' qs'].
  - apply elem_of_cons in Hin as [->|Hin]; [done|by apply elem_of_nil in Hin].
  - apply elem_of_cons in Hin as [->|Hin].
    + by destruct q.
    + specialize (IH Hin Hne). destruct q; simpl; [|done].
      intros E. apply app_eq_nil in E as [_ E]. done.
Qed.

(** X2. The cleaned text is empty exactly when the text holds nothing but
    white space. *)
Theorem clean_text_empty_iff_blank (text : pystr) :
  clean_text text = [] ↔ forallb isspace text = true.
Proof.
  split; [|apply clean_text_blank].
  intros Hempty. apply forallb_forall. intros x Hx%list_elem_of_In.
  destruct (isspace x) eqn:Ex; [done|]. exfalso.
  assert (is_linebreak x = false) as Hlb.
  { destruct (is_linebreak x) eqn:E; [|done].
    apply linebreak_isspace in E. congruence. }
  assert (is_space_char x = false) as Hsp.
  { destruct (is_space_char x) eqn:E; [|done].
    apply space_char_isspace in E. congruence. }
  destruct (splitlines_from_keeps x text [] (or_intror Hx) Hlb) as (line & Hline & Hxl).
  fold (splitlines text) in Hline.
  destruct (split_2sp_keeps x (strip line) (strip_keeps _ _ Hxl Ex) Hsp)
    as (piece & Hpiece & Hxp).
  pose proof (strip_keeps _ _ Hxp Ex) as Hchunk.
  revert Hempty. unfold clean_text. apply (join_nonempty _ _ (strip piece)).
  - apply list_elem_of_In, filter_In. split.
    + apply in_flat_map. exists (strip line). split.
      * apply in_map. by apply list_elem_of_In.
      * apply in_map. by apply list_elem_of_In.
    + destruct (strip piece); [by apply elem_of_nil in Hchunk|done].
  - intros E. rewrite E in Hchunk. by apply elem_of_nil in Hchunk.
Qed.

End MoreStrings.

(* ===================================================================== *)
(** ** Further properties: pages, answers and news that fail *)
(* ===================================================================== *)

Section Failures.
Context {W : Type} `{External W}.

Lemma extract_content_unavailable (self : NewsSummarizer) (url : value)
    (s : State W) (w : W) :
  page_unavailable url (world s) w →
  ∃ line, extract_content self url s =
    (Ok [], after s w [Call_extract_content url; Outbound_get url ∅ page_headers;
                       Print line]).
Proof.
  intros Hp. unfold extract_content. unfold_run. fold page_headers.
  destruct Hp as [e Hget|response Hget Hst|response e Hget Hst Hparse];
    rewrite Hget; unfold_run; unfold error_status in *.
  - eexists. finish_run. reflexivity.
  - rewrite Hst. eexists. finish_run. reflexivity.
  - rewrite Hst. unfold_run. rewrite Hparse. eexists. finish_run. reflexivity.
Qed.

Lemma news_events_init (self : NewsSummarizer) (prints : list event) :
  NewsSummarizer_init = Ok self → news_events self prints = fetch_events prints.
Proof. intros [Hurl Hparams]%init_fields. unfold news_events. by rewrite Hurl, Hparams. Qed.

Lemma fetch_news_unavailable (self : NewsSummarizer) (s : State W) (w : W) :
  news_unavailable self (world s) w →
  ∃ line, fetch_news self s = (Ok (VList []), after s w (news_events self [Print line])).
Proof.
  intros Hn. unfold fetch_news, news_events. unfold_run.
  destruct Hn as [msg Hget|response Hget Hst|response msg Hget Hst Hjson];
    rewrite Hget; unfold_run; unfold error_status in *.
  - eexists. finish_run. reflexivity.
  - rewrite Hst. eexists. finish_run. reflexivity.
  - rewrite Hst. unfold_run. rewrite Hjson. eexists. finish_run. reflexivity.
Qed.

(** X8. [fetch_news] with an answer that is a JSON object: the value under
    ['data'] as it is, or the empty list when the key is missing; one
    request, nothing printed. *)
Theorem fetch_news_returns_data (self : NewsSummarizer) (s : State W)
    (response : Response) (w : W) (answer : gmap pystr value) :
  requests_get (VStr (mediastack_url self)) (mediastack_params self) ∅ (world s)
    = (Ok response, w) →
  error_status response = false →
  json response = Ok (VDict answer) →
  fetch_news self s =
    (Ok (match answer !! py "data" with Some v => v | None => VList [] end),
     after s w (news_events self [])).
Proof.
  intros Hget Hst Hjson. unfold fetch_news, news_events, error_status in *.
  unfold_run. rewrite Hget. unfold_run. rewrite Hst. unfold_run. rewrite Hjson.
  finish_run. reflexivity.
Qed.

Lemma fetch_news_outcome (self : NewsSummarizer) (s : State W) :
  ∃ r w prints,
    fetch_news self s = (r, after s w (news_events self prints))
    ∧ match r with
      | Raise e => is_RequestException e = false ∧ prints = []
      | Ok v => prints = [] ∨ (v = VList [] ∧ ∃ line, prints = [Print line])
      end.
Proof.
  unfold fetch_news, news_events. unfold_run.
  destruct (requests_get (VStr (mediastack_url self)) (mediastack_params self) ∅ (world s))
    as [[response|e] w].
  - unfold_run.
    destruct ((400 <=? status_code response)%Z && (status_code response <? 600)%Z).
    + eexists _, w, [_]. finish_run. split; [reflexivity|]. right. eauto.
    + unfold_run. destruct (json response) as [data|e].
      * destruct (py_get data (py "data") (VList [])) as [v|e'].
        -- eexists _, w, []. finish_run. split; [reflexivity|]. by left.
        -- destruct (is_RequestException e') eqn:E.
           ++ eexists _, w, [_]. finish_run. split; [reflexivity|]. right. eauto.
           ++ eexists _, w, []. finish_run. split; [reflexivity|]. done.
      * destruct (is_RequestException e) eqn:E.
        -- eexists _, w, [_]. finish_run. split; [reflexivity|]. right. eauto.
        -- eexists _, w, []. finish_run. split; [reflexivity|]. done.
  - destruct (is_RequestException e) eqn:E.
    + eexists _, w, [_]. finish_run. split; [reflexivity|]. right. eauto.
    + eexists _, w, []. finish_run. split; [reflexivity|]. done.
Qed.

(** X9. Whatever [fetch_news] raises is not of the [requests] family, and
    nothing was printed about it; a value it returns after printing a line
    is the empty list. One request was sent in every case. *)
Theorem fetch_news_lets_no_request_exception_through (self : NewsSummarizer) (s : State W) :
  ∃ r w prints,
    fetch_news self s = (r, after s w (news_events self prints))
    ∧ match r with
      | Raise e => is_RequestException e = false ∧ prints = []
      | Ok v => prints = [] ∨ (v = VList [] ∧ ∃ line, prints = [Print line])
      end.
Proof. apply fetch_news_outcome. Qed.

Lemma generate_summary_strips (self : NewsSummarizer) (content : pystr)
    (s : State W) :
  ∃ summary s',
    generate_summary self content s = (Ok summary, s')
    ∧ starts_with_space summary = false
    ∧ ends_with_space summary = false.
Proof.
  unfold generate_summary. unfold_run.
  destruct (generate_content (gemini_client self) (py "gemini-2.0-flash")
              (summary_prompt content) (world s)) as [[response|e] w].
  - unfold_run. destruct (response_text response) as [t|].
    + eexists _, _. split; [reflexivity|]. split; [apply strip_starts|apply strip_ends].
    + eexists _, _. split; [reflexivity|]. done.
  - eexists _, _. split; [reflexivity|]. done.
Qed.

(** X6. An answer of the model that is white space only counts as no summary,
    and nothing is printed about it. *)
Theorem blank_answer_is_no_summary (self : NewsSummarizer) (content : pystr)
    (s : State W) (response : GenerateContentResponse) (w : W) (t : pystr) :
  generate_content (gemini_client self) (py "gemini-2.0-flash")
    (summary_prompt content) (world s) = (Ok response, w) →
  response_text response = Some t →
  forallb isspace t = true →
  generate_summary self content s =
    (Ok [], after s w [Call_generate_summary content;
                       Outbound_generate (py "gemini-2.0-flash") (summary_prompt content)]).
Proof.
  intros Hgen Htext Hblank. unfold generate_summary. unfold_run.
  rewrite Hgen. unfold_run. rewrite Htext, (strip_blank t Hblank).
  finish_run. reflexivity.
Qed.

Lemma summarize_article_no_content (self : NewsSummarizer)
    (article : gmap pystr value) (s s1 : State W) :
  truthy (article_url article) = true →
  extract_content self (article_url article) s = (Ok [], s1) →
  summarize_article self (VDict article) s
  = (Ok (VDict (summary_record article NoContent)), s1).
Proof.
  intros Hurl Hex.
  destruct (summarize_article_dict self article s) as (v & s' & Hstep & E).
  inversion Hstep as [Ht|s2 Ht Hex'|content s2 s3 Ht Hex' Hne
                     |content summary s2 s3 Ht Hex' Hne]; subst;
    congruence.
Qed.

(** X3. An article whose page cannot be had (the request raises, the status is
    an error, the parser raises) gets the record 'Could not extract article
    content.'; one request was sent, one line printed, and the summarizer
    was not called. *)
Theorem unavailable_page_is_no_content (self : NewsSummarizer)
    (article : gmap pystr value) (s : State W) (w : W) :
  truthy (article_url article) = true →
  page_unavailable (article_url article) (world s) w →
  ∃ line,
    summarize_article self (VDict article) s =
      (Ok (VDict (summary_record article NoContent)),
       after s w [Call_extract_content (article_url article);
                  Outbound_get (article_url article) ∅ page_headers;
                  Print line]).
Proof.
  intros Hurl Hp.
  destruct (extract_content_unavailable self _ s w Hp) as (line & Hex).
  exists line. by apply summarize_article_no_content.
Qed.

(** X4. A page that was fetched and parsed but whose text outside script,
    style and anchor elements is white space only gets the same record, and
    nothing is printed. *)
Theorem blank_page_is_no_content (self : NewsSummarizer)
    (article : gmap pystr value) (s : State W) (response : Response) (w : W)
    (doc : soup) :
  truthy (article_url article) = true →
  requests_get (article_url article) ∅ page_headers (world s) = (Ok response, w) →
  error_status response = false →
  html_parser (text response) = Ok doc →
  forallb isspace (document_text_without [py "script"; py "style"; py "a"] doc) = true →
  summarize_article self (VDict article) s =
    (Ok (VDict (summary_record article NoContent)),
     after s w [Call_extract_content (article_url article);
                Outbound_get (article_url article) ∅ page_headers]).
Proof.
  intros Hurl Hget Hst Hparse Hblank.
  apply summarize_article_no_content; [done|].
  rewrite (extract_content_success self _ s response w doc) by done.
  by rewrite decompose_all_text, (clean_text_blank _ Hblank).
Qed.

Lemma article_step_tidy (self : NewsSummarizer) (article : gmap pystr value)
    (s s' : State W) (v : verdict) :
  article_step self article s v s' → verdict_tidy v.
Proof.
  intros Hstep.
  inversion Hstep as [ | | |content summary s1 s2 Ht Hex Hne Hgen Hsum]; subst;
    try exact I.
  destruct (generate_summary_strips self content s1) as (t & s3 & E & Hs & He).
  rewrite Hgen in E. injection E as <- _. by repeat split.
Qed.

Lemma pipeline_run_tidy (self : NewsSummarizer) (articles : list (gmap pystr value))
    (s s' : State W) (vs : list verdict) :
  pipeline_run self articles s vs s' → Forall verdict_tidy vs.
Proof.
  induction 1 as [|a rest s v s1 vs s2 Hstep Hrun IH]; constructor; [|done].
  by eapply article_step_tidy.
Qed.

Lemma summary_record_tidy (article : gmap pystr value) (v : verdict) :
  verdict_tidy v → summary_tidy (VDict (summary_record article v)).
Proof.
  intros Hv. exists (summary_record article v). split; [done|].
  rewrite summary_record_summary. by destruct v.
Qed.

(** X7. In every record of the loop the summary is [None] or a string that is
    not empty and has no white space at either end. *)
Theorem summaries_are_tidy (self : NewsSummarizer)
    (articles : list (gmap pystr value)) (s : State W) :
  ∃ results s',
    for_articles self (map VDict articles) [] s = (Ok results, s')
    ∧ Forall summary_tidy results.
Proof.
  destruct (for_articles_dicts self articles [] s) as (vs & s' & Hrun & E).
  exists (records articles vs), s'. split; [exact E|].
  pose proof (pipeline_run_tidy _ _ _ _ _ Hrun) as Htidy.
  unfold records. apply Forall_map. clear E Hrun.
  revert vs Htidy. induction articles as [|a articles IH]; intros vs Htidy;
    destruct Htidy as [|v vs Hv Hvs]; simpl; constructor.
  - by apply summary_record_tidy.
  - by apply IH.
Qed.

End Failures.

(* ===================================================================== *)
(** ** Further properties: the answers of the endpoint *)
(* ===================================================================== *)

Section Requests.
Context {W : Type} `{External W}.

Lemma summary_record_keys (article : gmap pystr value) (v : verdict) :
  dom (summary_record article v) = record_keys.
Proof.
  unfold summary_record, record_keys. rewrite !dom_insert_L, dom_empty_L. set_solver.
Qed.

(** X15. Every record of the loop has the six keys title, source, url,
    published, summary and error, and no other. *)
Theorem records_have_six_keys (self : NewsSummarizer)
    (articles : list (gmap pystr value)) (s : State W) :
  ∃ results s',
    for_articles self (map VDict articles) [] s = (Ok results, s')
    ∧ length results = length articles
    ∧ Forall has_record_keys results.
Proof.
  destruct (for_articles_dicts self articles [] s) as (vs & s' & Hrun & E).
  exists (records articles vs), s'. split; [exact E|].
  split; [apply records_length; by eapply pipeline_run_length|].
  apply records_Forall. intros a v. exists (summary_record a v).
  split; [done|apply summary_record_keys].
Qed.

(** X10. When, on a miss, the summarizer is built and the news are not to
    be had, the answer is 404 'No articles found.': one request was sent,
    one line printed, and the cache is as it was. *)
Theorem unavailable_news_is_not_found (self : NewsSummarizer) (s : State W)
    (now : float) (w1 w2 : W) :
  time_time (world s) = (now, w1) →
  is_fresh (_summaries_cache s) now = false →
  NewsSummarizer_init = Ok self →
  news_unavailable self w1 w2 →
  ∃ line,
    get_summaries s =
      (Ok not_found_response, after (at_world s w1) w2 (fetch_events [Print line]))
    ∧ _summaries_cache (after (at_world s w1) w2 (fetch_events [Print line]))
      = _summaries_cache s.
Proof.
  intros Hclock Hstale Hinit Hnews.
  destruct (fetch_news_unavailable self (at_world s w1) w2 Hnews)
    as (line & Hfetch).
  rewrite (news_events_init self _ Hinit) in Hfetch.
  exists line. split; [|done].
  rewrite (get_summaries_of_miss s now w1) by done.
  by rewrite (refresh_of_fetch self _ _ _ Hinit Hfetch).
Qed.

(** X11. A request that does not answer 200 leaves the cache as it was and
    assigns nothing to it. *)
Theorem only_ok_answers_change_the_cache (s : State W) (r : result HttpResponse)
    (s' : State W) :
  get_summaries s = (r, s') →
  (∀ response, r = Ok response → status response ≠ 200%Z) →
  _summaries_cache s' = _summaries_cache s
  ∧ count is_cache_write (trace s') = count is_cache_write (trace s).
Proof.
  intros Hrun Hnot.
  destruct (get_summaries_run s) as (r' & q & Hrun' & Ho).
  rewrite Hrun in Hrun'. injection Hrun' as <- <-.
  inversion Ho as [now w stored_data Hc Hd Hf|now w e Hc Hf Hi
                  |now w self r' s'' Hc Hf Hi Hr]; subst; [done|done|].
  destruct (refresh_shape _ _ _ _ Hi Hr)
    as (prints & segs & stores & Htrace & Hprints & Hsegs & _ & Hcases).
  destruct Hcases as [(-> & Hcache & _)|(t & results & s2 & _ & _ & -> & _)].
  - split; [exact Hcache|]. rewrite Htrace. cbn [trace at_world].
    rewrite !count_app, count_fetch_events by done.
    destruct (segments_no_fetch _ Hsegs) as [_ ->]. unfold count. simpl. lia.
  - by destruct (Hnot _ eq_refl).
Qed.

Lemma pipeline_run_cache (self : NewsSummarizer) (articles : list (gmap pystr value))
    (s s' : State W) (vs : list verdict) :
  pipeline_run self articles s vs s' → _summaries_cache s' = _summaries_cache s.
Proof.
  intros Hrun.
  destruct (for_articles_dicts self articles [] s) as (vs' & s2 & Hrun' & E).
  destruct (for_articles_trace self (map VDict articles) [] s)
    as (r & w & segs & E' & _).
  assert (s' = s2) as ->.
  { clear E E'. revert vs' s2 Hrun'.
    induction Hrun as [|a rest s v s1 vs s3 Hstep Hrun IH]; intros vs' s2 Hrun'.
    - by inversion Hrun'.
    - inversion Hrun' as [|? ? ? v' s1' vs'' ? Hstep' Hrun'']; subst.
      assert (s1 = s1') as <-.
      { inversion Hstep; inversion Hstep'; subst; congruence. }
      by eapply IH. }
  rewrite E in E'. by injection E' as _ ->.
Qed.

(** X12. On a miss, once the summarizer is built, a non-empty list of
    article objects is always answered with 200 and stored, whatever became
    of the single articles. *)
Theorem articles_are_always_answered (self : NewsSummarizer) (s : State W)
    (now : float) (w1 : W) (articles : list (gmap pystr value)) (s1 : State W) :
  time_time (world s) = (now, w1) →
  is_fresh (_summaries_cache s) now = false →
  NewsSummarizer_init = Ok self →
  fetch_news self (at_world s w1) = (Ok (VList (map VDict articles)), s1) →
  articles ≠ [] →
  ∃ vs s2 t w,
    pipeline_run self articles s1 vs s2
    ∧ time_time (world s2) = (t, w)
    ∧ get_summaries s =
        (Ok (ok_response (records articles vs)),
         stored_state s2 w t (records articles vs))
    ∧ length (records articles vs) = length articles.
Proof.
  intros Hclock Hstale Hinit Hfetch Hne.
  destruct (for_articles_dicts self articles [] s1)
    as (vs & s2 & Hrun & E).
  destruct (time_time (world s2)) as [t w] eqn:Ec.
  exists vs, s2, t, w. split; [done|]. split; [done|]. split.
  - rewrite (get_summaries_of_miss s now w1) by done.
    rewrite (refresh_of_fetch self _ _ _ Hinit Hfetch).
    destruct articles; [done|]. cbn [truthy map negb py_iter].
    change (VDict g :: map VDict articles) with (map VDict (g :: articles)).
    simpl in E. simpl. rewrite E, Ec. done.
  - apply records_length. by eapply pipeline_run_length.
Qed.

Lemma for_articles_non_dict (self : NewsSummarizer) (pre : list (gmap pystr value))
    (bad : value) (rest results : list value) (s : State W) :
  (∀ d, bad ≠ VDict d) →
  ∃ vs s' msg,
    pipeline_run self pre s vs s'
    ∧ for_articles self (map VDict pre ++ bad :: rest) results s
      = (Raise (AttributeError msg), s').
Proof.
  intros Hbad. revert results s. induction pre as [|a pre IH]; intros results s.
  - exists [], s. cbn [map app for_articles]. unfold_run.
    destruct bad as [ |b|n|f|t|l|d]; try (eexists; split; [constructor|reflexivity]).
    by destruct (Hbad d).
  - destruct (summarize_article_dict self a s) as (v & s1 & Hstep & E).
    destruct (IH (results ++ [VDict (summary_record a v)]) s1) as (vs & s2 & msg & Hrun & E').
    exists (v :: vs), s2, msg. split; [by econstructor|].
    cbn [map app for_articles]. unfold_run. by rewrite E, E'.
Qed.

(** X13. On a miss, once the summarizer is built, an article that is not
    an object fails the request: the articles before it were processed, it
    raises [AttributeError] before anything is called for it, the articles
    after it are not looked at, and nothing is stored. *)
Theorem non_dict_article_fails_the_request (self : NewsSummarizer) (s : State W)
    (now : float) (w1 : W) (pre : list (gmap pystr value)) (bad : value)
    (rest : list value) (s1 : State W) :
  time_time (world s) = (now, w1) →
  is_fresh (_summaries_cache s) now = false →
  NewsSummarizer_init = Ok self →
  fetch_news self (at_world s w1)
    = (Ok (VList (map VDict pre ++ bad :: rest)), s1) →
  (∀ d, bad ≠ VDict d) →
  ∃ vs s2 msg,
    pipeline_run self pre s1 vs s2
    ∧ get_summaries s = (Raise (AttributeError msg), s2)
    ∧ _summaries_cache s2 = _summaries_cache s.
Proof.
  intros Hclock Hstale Hinit Hfetch Hbad.
  destruct (for_articles_non_dict self pre bad rest [] s1 Hbad)
    as (vs & s2 & msg & Hrun & E).
  exists vs, s2, msg. split; [done|]. split.
  - rewrite (get_summaries_of_miss s now w1) by done.
    rewrite (refresh_of_fetch self _ _ _ Hinit Hfetch).
    assert (truthy (VList (map VDict pre ++ bad :: rest)) = true) as ->
      by (by destruct pre).
    cbn [negb py_iter]. by rewrite E.
  - rewrite (pipeline_run_cache _ _ _ _ _ Hrun).
    destruct (fetch_news_run self (at_world s w1))
      as (r0 & w & prints & Ef & _).
    rewrite Hfetch in Ef. by injection Ef as _ ->.
Qed.

(** X14. On a miss, once the summarizer is built, a truthy ['data'] that
    is not a list (a string, an object, a number, [true]) fails the request
    right after the fetch: the loop raises [AttributeError] on the first
    character or key, or [TypeError] before it starts. *)
Theorem non_list_data_fails_the_request (self : NewsSummarizer) (s : State W)
    (now : float) (w1 : W) (articles : value) (s1 : State W) :
  time_time (world s) = (now, w1) →
  is_fresh (_summaries_cache s) now = false →
  NewsSummarizer_init = Ok self →
  fetch_news self (at_world s w1) = (Ok articles, s1) →
  truthy articles = true →
  (∀ l, articles ≠ VList l) →
  ∃ e,
    get_summaries s = (Raise e, s1)
    ∧ ((∃ msg, e = AttributeError msg) ∨ (∃ msg, e = TypeError msg))
    ∧ _summaries_cache s1 = _summaries_cache s.
Proof.
  intros Hclock Hstale Hinit Hfetch Htruthy Hnl.
  assert (_summaries_cache s1 = _summaries_cache s) as Hcache.
  { destruct (fetch_news_run self (at_world s w1))
      as (r0 & w & prints & Ef & _).
    rewrite Hfetch in Ef. by injection Ef as _ ->. }
  rewrite (get_summaries_of_miss s now w1) by done.
  rewrite (refresh_of_fetch self _ _ _ Hinit Hfetch), Htruthy. cbn [negb].
  destruct articles as [ |b|n|f|t|l|d]; cbn [py_iter].
  - done.
  - eexists. split; [reflexivity|]. split; [right; eauto|done].
  - eexists. split; [reflexivity|]. split; [right; eauto|done].
  - eexists. split; [reflexivity|]. split; [right; eauto|done].
  - destruct t as [|c t]; [done|]. cbn [map for_articles]. unfold_run.
    eexists. split; [reflexivity|]. split; [left; eauto|done].
  - by destruct (Hnl l).
  - simpl in Htruthy. destruct (map_to_list d) as [|kv kvs]; [done|].
    cbn [map for_articles]. unfold_run.
    eexists. split; [reflexivity|]. split; [left; eauto|done].
Qed.

(** X21. The whole way of an article that gets its summary. When the page
    is fetched and parsed, its cleaned text is not empty, and the model
    answers with a text that is not white space only, then the text sent to
    the model is the prompt around the cleaned text of the page outside its
    script, style and anchor elements, the record shows the answer of the
    model stripped and no error, two requests were sent and nothing was
    printed. *)
Theorem summarized_article (self : NewsSummarizer) (article : gmap pystr value)
    (s : State W) (page_response : Response) (w1 : W) (doc : soup)
    (answer : GenerateContentResponse) (w2 : W) (t : pystr) :
  truthy (article_url article) = true →
  requests_get (article_url article) ∅ page_headers (world s) = (Ok page_response, w1) →
  error_status page_response = false →
  html_parser (text page_response) = Ok doc →
  clean_text (document_text_without [py "script"; py "style"; py "a"] doc) ≠ [] →
  generate_content (gemini_client self) GEMINI_MODEL
    (summary_prompt (clean_text (document_text_without [py "script"; py "style"; py "a"] doc)))
    w1 = (Ok answer, w2) →
  response_text answer = Some t →
  strip t ≠ [] →
  summarize_article self (VDict article) s =
    (Ok (VDict (summary_record article (Summarized (strip t)))),
     after s w2
       [Call_extract_content (article_url article);
        Outbound_get (article_url article) ∅ page_headers;
        Call_generate_summary
          (clean_text (document_text_without [py "script"; py "style"; py "a"] doc));
        Outbound_generate GEMINI_MODEL
          (summary_prompt
             (clean_text (document_text_without [py "script"; py "style"; py "a"] doc)))]).
Proof.
  intros Hurl Hget Hst Hparse Hne Hgen Htext Hsum.
  set (content := clean_text (document_text_without [py "script"; py "style"; py "a"] doc)) in *.
  pose proof (extract_content_success self _ s page_response w1 doc Hget Hst Hparse) as Hex.
  rewrite decompose_all_text in Hex. fold content in Hex.
  match type of Hex with _ = (_, ?st) => set (s1 := st) in * end.
  assert (generate_summary self content s1 =
          (Ok (strip t),
           after s1 w2 [Call_generate_summary content;
                        Outbound_generate GEMINI_MODEL (summary_prompt content)])) as Hgs.
  { unfold generate_summary. unfold_run. subst s1. cbn [world after].
    unfold GEMINI_MODEL in Hgen. rewrite Hgen. unfold_run. rewrite Htext.
    finish_run. reflexivity. }
  destruct (summarize_article_dict self article s) as (v & s' & Hstep & E).
  rewrite E.
  inversion Hstep as [Ht|s2 Ht Hex'|c s2 s3 Ht Hex' Hc Hgs'|c sm s2 s3 Ht Hex' Hc Hgs' Hsm];
    subst.
  - congruence.
  - rewrite Hex in Hex'. injection Hex' as E1 _. by rewrite E1 in Hne.
  - rewrite Hex in Hex'. injection Hex' as <- <-.
    rewrite Hgs in Hgs'. injection Hgs' as E1 _. by rewrite E1 in Hsum.
  - rewrite Hex in Hex'. injection Hex' as <- <-.
    rewrite Hgs in Hgs'. injection Hgs' as <- <-.
    subst s1. by rewrite after_after.
Qed.




End Requests.

(* ===================================================================== *)
(** ** Further properties: the requests a run sends *)
(* ===================================================================== *)

Section Shapes.
Context {W : Type} `{External W}.

Lemma extract_content_shape (self : NewsSummarizer) (url : value) (s : State W) :
  ∃ content w prints,
    extract_content self url s =
      (Ok content,
       after s w (Call_extract_content url :: Outbound_get url ∅ page_headers :: prints))
    ∧ (prints = [] ∨ (content = [] ∧ ∃ line, prints = [Print line])).
Proof.
  unfold extract_content. unfold_run. fold page_headers.
  destruct (requests_get url ∅ page_headers (world s)) as [[response|e] w].
  - unfold_run.
    destruct ((400 <=? status_code response)%Z && (status_code response <? 600)%Z).
    + eexists _, w, [_]. finish_run. split; [reflexivity|]. right. eauto.
    + unfold_run.
      destruct (html_parser (text response)) as [doc|e].
      * eexists _, w, []. finish_run. split; [reflexivity|]. by left.
      * eexists _, w, [_]. finish_run. split; [reflexivity|]. right. eauto.
  - eexists _, w, [_]. finish_run. split; [reflexivity|]. right. eauto.
Qed.

Lemma generate_summary_shape (self : NewsSummarizer) (content : pystr) (s : State W) :
  ∃ summary w prints,
    generate_summary self content s =
      (Ok summary,
       after s w (Call_generate_summary content
                  :: Outbound_generate GEMINI_MODEL (summary_prompt content) :: prints))
    ∧ (prints = [] ∨ (summary = [] ∧ ∃ line, prints = [Print line])).
Proof.
  unfold generate_summary, GEMINI_MODEL. unfold_run.
  destruct (generate_content (gemini_client self) (py "gemini-2.0-flash")
              (summary_prompt content) (world s)) as [[response|e] w].
  - unfold_run. destruct (response_text response) as [t|].
    + eexists _, w, []. finish_run. split; [reflexivity|]. by left.
    + eexists _, w, [_]. finish_run. split; [reflexivity|]. right. eauto.
  - eexists _, w, [_]. finish_run. split; [reflexivity|]. right. eauto.
Qed.

(** X5. [generate_summary] always returns: one request was sent, at most one
    line printed, and what it returns has no white space at either end. *)
Theorem generate_summary_is_stripped (self : NewsSummarizer) (content : pystr)
    (s : State W) :
  ∃ summary w prints,
    generate_summary self content s =
      (Ok summary,
       after s w (Call_generate_summary content
                  :: Outbound_generate GEMINI_MODEL (summary_prompt content) :: prints))
    ∧ at_most_one_print prints
    ∧ starts_with_space summary = false
    ∧ ends_with_space summary = false.
Proof.
  destruct (generate_summary_shape self content s) as (summary & w & prints & E & Hp).
  destruct (generate_summary_strips self content s) as (t & s' & E' & Hs & He).
  rewrite E in E'. injection E' as <- _.
  exists summary, w, prints. split; [exact E|].
  split; [|by split]. destruct Hp as [->|(_ & line & ->)]; [by left|right; eauto].
Qed.

Lemma summarize_article_shape (self : NewsSummarizer) (article : value) (s : State W) :
  ∃ r w seg, summarize_article self article s = (r, after s w seg) ∧ segment_shape seg.
Proof.
  destruct article as [ |b|n|f|t|l|a];
    try (eexists _, (world s), []; rewrite after_nil; split;
         [reflexivity|constructor]).
  unfold summarize_article, py_get. unfold_run.
  fold (article_url a).
  destruct (truthy (article_url a)) eqn:Hurl.
  2:{ eexists _, (world s), []. rewrite after_nil. split; [reflexivity|constructor]. }
  destruct (extract_content_shape self (article_url a) s)
    as (content & w1 & p1 & E1 & Hp1).
  rewrite E1. destruct content as [|c content]; cbn [nonempty].
  { eexists _, w1, _. split; [reflexivity|]. constructor; [done|].
    destruct Hp1 as [->|(_ & line & ->)]; [by left|right; eauto]. }
  destruct Hp1 as [->|([=] & _)].
  match type of E1 with _ = (_, ?st) => set (s1 := st) in * end.
  destruct (generate_summary_shape self (c :: content) s1)
    as (summary & w2 & p2 & E2 & Hp2).
  rewrite E2. subst s1. rewrite after_after. cbn [app].
  assert (segment_shape
    (Call_extract_content (article_url a)
     :: Outbound_get (article_url a) ∅ page_headers
     :: Call_generate_summary (c :: content)
     :: Outbound_generate GEMINI_MODEL (summary_prompt (c :: content))
     :: p2)) as Hseg.
  { apply segment_summary; [done|done|].
    destruct Hp2 as [->|(_ & line & ->)]; [by left|right; eauto]. }
  destruct summary; cbn [nonempty]; eexists _, w2, _; split; (reflexivity || exact Hseg).
Qed.

Lemma for_articles_shape (self : NewsSummarizer) (items results : list value)
    (s : State W) :
  ∃ r w segs,
    for_articles self items results s = (r, after s w (concat segs))
    ∧ Forall segment_shape segs
    ∧ (length segs ≤ length items)%nat.
Proof.
  revert results s. induction items as [|item rest IH]; intros results s.
  - exists (Ok results), (world s), []. cbn [concat]. rewrite after_nil.
    split; [done|]. split; [constructor|done].
  - destruct (summarize_article_shape self item s) as (r & w1 & seg & E & Hseg).
    cbn [for_articles]. unfold_run. rewrite E. destruct r as [rec|e].
    + destruct (IH (results ++ [rec]) (after s w1 seg))
        as (r' & w2 & segs & E' & Hsegs & Hlen).
      rewrite E', after_after.
      exists r', w2, (seg :: segs).
      split; [done|]. split; [by constructor|simpl; lia].
    + exists (Raise e), w1, [seg]. cbn [concat]. rewrite app_nil_r.
      split; [done|]. split; [by constructor|simpl; lia].
Qed.

Lemma segment_requests (seg : list event) :
  segment_shape seg → Forall request_well_formed seg.
Proof.
  assert (∀ prints, at_most_one_print prints → Forall request_well_formed prints) as Hp.
  { intros prints [->|(line & ->)]; by repeat constructor. }
  destruct 1 as [|url prints Hurl Hprints|url content prints Hurl Hne Hprints].
  - constructor.
  - constructor; [done|]. constructor; [by right|]. by apply Hp.
  - constructor; [done|]. constructor; [by right|]. constructor; [done|].
    constructor; [|by apply Hp]. split; [done|]. by exists content.
Qed.

Lemma segments_requests (segs : list (list event)) :
  Forall segment_shape segs → Forall request_well_formed (concat segs).
Proof.
  induction 1 as [|seg segs Hseg _ IH]; [constructor|].
  cbn [concat]. apply Forall_app. split; [by apply segment_requests|done].
Qed.

Lemma fetch_news_shape (self : NewsSummarizer) (s : State W) :
  NewsSummarizer_init = Ok self →
  ∃ r w prints,
    fetch_news self s = (r, after s w (fetch_events prints))
    ∧ at_most_one_print prints.
Proof.
  intros Hinit.
  destruct (fetch_news_outcome self s)
    as (r & w & prints & E & Hr).
  rewrite (news_events_init self _ Hinit) in E.
  exists r, w, prints. split; [exact E|].
  destruct r as [v|e].
  - destruct Hr as [->|(_ & line & ->)]; [by left|right; eauto].
  - destruct Hr as [_ ->]. by left.
Qed.

(** X16. What a request to the endpoint adds to the trace has the shape of
    [handler_trace], and every request in it is well formed: the access key
    goes to the news API and to no article page. *)
Theorem get_summaries_trace (s : State W) :
  ∃ r s' added,
    get_summaries s = (r, s')
    ∧ trace s' = trace s ++ added
    ∧ handler_trace added
    ∧ Forall request_well_formed added.
Proof.
  destruct (get_summaries_run s) as (r & s' & Hrun & Ho).
  exists r, s'.
  inversion Ho as [now w stored_data Hc Hd Hf|now w e Hc Hf Hi
                  |now w self r' s'' Hc Hf Hinit Hr]; subst.
  1-2: exists []; rewrite app_nil_r; (split; [done|]); (split; [done|]);
    split; constructor.
  destruct (fetch_news_shape self (at_world s w) Hinit)
    as (r0 & w1 & prints & Ef & Hprints).
  assert (Forall request_well_formed (fetch_events prints)) as Hfe.
  { constructor; [done|]. constructor; [by left|].
    destruct Hprints as [->|(line & ->)]; by repeat constructor. }
  assert (∀ items, ∃ r1 w2 segs,
    for_articles self items [] (after (at_world s w) w1 (fetch_events prints))
    = (r1, after (at_world s w) w2 (fetch_events prints ++ concat segs))
    ∧ Forall segment_shape segs) as Hloop.
  { intros items.
    destruct (for_articles_shape self items []
                (after (at_world s w) w1 (fetch_events prints)))
      as (r1 & w2 & segs & El & Hsegs & _).
    rewrite after_after in El. by exists r1, w2, segs. }
  inversion Hr as [e s1 Ef'|articles s1 Ef' Ht|articles e s1 Ef' Ht Hi
                  |articles items e s1 s2 Ef' Ht Hi El
                  |articles items results s1 s2 t w' Ef' Ht Hi El Ec]; subst;
    rewrite Ef in Ef'; injection Ef' as -> <-.
  1-3: exists (fetch_events prints ++ concat [] ++ []);
    (split; [done|]); (split; [cbn [concat app]; by rewrite app_nil_r|]);
    (split; [by constructor|]); cbn [concat app]; by rewrite app_nil_r.
  - destruct (Hloop items) as (r1 & w2 & segs & El' & Hsegs).
    rewrite El in El'. injection El' as <- ->.
    exists (fetch_events prints ++ concat segs ++ []).
    split; [done|]. split; [by rewrite app_nil_r|].
    split; [by constructor|]. rewrite app_nil_r.
    apply Forall_app. split; [done|by apply segments_requests].
  - destruct (Hloop items) as (r1 & w2 & segs & El' & Hsegs).
    rewrite El in El'. injection El' as <- ->.
    exists (fetch_events prints ++ concat segs ++
            [CacheWrite {| timestamp := t; data := data (_summaries_cache s) |};
             CacheWrite {| timestamp := t; data := Some results |}]).
    split; [done|]. split.
    { unfold stored_state, after, at_world, fetch_events.
      cbn [trace _summaries_cache world app].
      rewrite <- ?app_assoc. cbn [app]. rewrite <- ?app_assoc. reflexivity. }
    split; [constructor; [done|done|by repeat constructor]|].
    apply Forall_app. split; [done|].
    apply Forall_app. split; [by apply segments_requests|by repeat constructor].
Qed.

End Shapes.

(* ===================================================================== *)
(** ** Further properties: [main] *)
(* ===================================================================== *)

Section ScriptFacts.
Context {W : Type} `{External W} `{Interpreter}.








(** X18. The text [format_article] prints for an article shows, through
    [str], the very values that the record the body of the endpoint's loop
    returns for this article holds under title, source, url and
    published. *)
Theorem format_article_shows_the_record (self : NewsSummarizer)
    (article : gmap pystr value) (s : State W) :
  ∃ record s' title source url published,
    summarize_article self (VDict article) s = (Ok (VDict record), s')
    ∧ record !! py "title" = Some title
    ∧ record !! py "source" = Some source
    ∧ record !! py "url" = Some url
    ∧ record !! py "published" = Some published
    ∧ format_article self (VDict article)
      = Ok (article_text (py_str title) (py_str source) (py_str url) (py_str published)).
Proof.
  destruct (summarize_article_dict self article s) as (v & s' & _ & E).
  exists (summary_record article v), s',
    (field article (py "title")), (field article (py "source")),
    (field article (py "url")), (field article (py "published_at")).
  split; [exact E|].
  repeat split; try (apply summary_record_field; set_solver).
Qed.

Lemma calm_page (url : value) : calm (Outbound_get url ∅ page_headers).
Proof. split; [done|]. split; [done|]. by right. Qed.

Lemma calm_generate (content : pystr) :
  content ≠ [] → calm (Outbound_generate GEMINI_MODEL (summary_prompt content)).
Proof. intros Hne. split; [done|]. split; [done|]. split; [done|]. by exists content. Qed.

Lemma calm_prints (prints : list event) (content : pystr) :
  prints = [] ∨ (content = [] ∧ ∃ line, prints = [Print line]) → Forall calm prints.
Proof. intros [->|(_ & line & ->)]; by repeat constructor. Qed.

Ltac calm_list :=
  repeat (apply Forall_cons_2;
          [first [apply calm_page|apply calm_generate; done|done]|]).

Lemma main_article_calm (self : NewsSummarizer) (article : value) (s : State W) :
  ∃ r w seg, main_article self article s = (r, after s w seg) ∧ Forall calm seg.
Proof.
  unfold main_article. unfold_run.
  destruct (format_article self article) as [shown|e] eqn:Ef.
  2:{ eexists _, (world s), [_]. split; [reflexivity|]. by repeat constructor. }
  destruct article as [ |b|n|f|t|l|a]; try discriminate Ef.
  unfold py_get. unfold_run. fold (article_url a).
  destruct (truthy (article_url a)) eqn:Hurl.
  2:{ eexists _, (world s), [_; _; _]. finish_run. split; [reflexivity|].
      by repeat constructor. }
  match goal with |- context [extract_content self _ ?st] => set (s1 := st) end.
  destruct (extract_content_shape self (article_url a) s1)
    as (content & w1 & p1 & E1 & Hp1).
  rewrite E1. destruct content as [|c content]; cbn [nonempty].
  { eexists _, w1, (_ :: _ :: _ :: _ :: _ :: p1 ++ [_]). split.
    - subst s1. finish_run. rewrite <- ?app_assoc. reflexivity.
    - calm_list. apply Forall_app. split; [by eapply calm_prints|by repeat constructor]. }
  destruct Hp1 as [->|([=] & _)].
  match goal with |- context [generate_summary self _ ?st] => set (s2 := st) end.
  destruct (generate_summary_shape self (c :: content) s2)
    as (summary & w2 & p2 & E2 & Hp2).
  rewrite E2.
  assert (Forall calm
    (Print RULE :: Print shown :: Print (py "Extracting content...")
     :: Call_extract_content (article_url a)
     :: Outbound_get (article_url a) ∅ page_headers
     :: Print (py "Generating summary...")
     :: Call_generate_summary (c :: content)
     :: Outbound_generate GEMINI_MODEL (summary_prompt (c :: content))
     :: p2)) as Hcalm.
  { calm_list. by eapply calm_prints. }
  match type of Hcalm with Forall _ ?l => set (L := l) in * end.
  destruct summary as [|z summary]; cbn [nonempty].
  - exists (Ok tt), w2, (L ++ [Print (py "Could not generate summary.")]). split.
    + subst L s2 s1. finish_run. rewrite <- ?app_assoc. cbn [app]. reflexivity.
    + apply Forall_app. split; [exact Hcalm|by repeat constructor].
  - exists (Ok tt), w2, (L ++ [Print (py "Summary: " ++ z :: summary)]). split.
    + subst L s2 s1. finish_run. rewrite <- ?app_assoc. cbn [app]. reflexivity.
    + apply Forall_app. split; [exact Hcalm|by repeat constructor].
Qed.

Lemma main_loop_calm (self : NewsSummarizer) (items : list value) (s : State W) :
  ∃ r w added, main_loop self items s = (r, after s w added) ∧ Forall calm added.
Proof.
  revert s. induction items as [|item rest IH]; intros s.
  - exists (Ok tt), (world s), []. rewrite after_nil. by split.
  - destruct (main_article_calm self item s) as (r & w1 & seg & E & Hseg).
    cbn [main_loop]. unfold_run. rewrite E. destruct r as [[]|e].
    + destruct (IH (after s w1 seg)) as (r' & w2 & added & E' & Hadded).
      rewrite E', after_after. exists r', w2, (seg ++ added).
      split; [done|]. by apply Forall_app.
    + by exists (Raise e), w1, seg.
Qed.

Lemma calm_counts (l : list event) :
  Forall calm l →
  count is_cache_write l = 0%nat ∧ count is_fetch_call l = 0%nat
  ∧ Forall request_well_formed l.
Proof.
  induction 1 as [|e l (Hc & Hf & Hr) _ (IHc & IHf & IHr)]; [by repeat split|].
  rewrite !count_cons, Hc, Hf, IHc, IHf. repeat split; try done. by constructor.
Qed.

(** X19. [main] sends only well-formed requests and has nothing to do with
    the cache: it assigns nothing to it and leaves it as it was. When the
    constructor of line 145 returns, [main] fetches the news exactly once;
    when it raises, [main] raises the same exception before anything is
    printed or sent. *)
Theorem main_leaves_the_cache_alone (s : State W) :
  ∃ r s' added,
    main s = (r, s')
    ∧ trace s' = trace s ++ added
    ∧ _summaries_cache s' = _summaries_cache s
    ∧ count is_cache_write added = 0%nat
    ∧ Forall request_well_formed added
    ∧ (∀ self, NewsSummarizer_init = Ok self → count is_fetch_call added = 1%nat)
    ∧ (∀ e, NewsSummarizer_init = Raise e → r = Raise e ∧ added = []).
Proof.
  unfold main. unfold_run.
  destruct NewsSummarizer_init as [self|e0] eqn:Hinit.
  2:{ exists (Raise e0), s, []. rewrite app_nil_r.
      split; [done|]. split; [done|]. split; [done|]. split; [done|].
      split; [constructor|]. split; [done|]. by intros e [= <-]. }
  match goal with |- context [fetch_news _ ?st] => set (s0 := st) end.
  destruct (fetch_news_shape self s0 Hinit) as (r0 & w1 & prints & Ef & Hprints).
  rewrite Ef.
  set (head := Print (py "Fetching news articles...") :: fetch_events prints).
  assert (count is_cache_write head = 0%nat ∧ count is_fetch_call head = 1%nat
          ∧ Forall request_well_formed head) as (Hc & Hf & Hr).
  { subst head. destruct Hprints as [->|(line & ->)]; repeat split; try reflexivity;
      repeat (constructor; try done); by left. }
  assert (∀ (r : result unit) w l, Forall calm l →
            ∃ s' added,
              (r, after s0 w (fetch_events prints ++ l)) = (r, s')
              ∧ trace s' = trace s ++ added
              ∧ _summaries_cache s' = _summaries_cache s
              ∧ count is_cache_write added = 0%nat
              ∧ Forall request_well_formed added
              ∧ (∀ self', Ok self = Ok self' → count is_fetch_call added = 1%nat)
              ∧ (∀ e, @Ok NewsSummarizer self = Raise e → r = Raise e ∧ added = []))
    as Hdone.
  { intros r w l Hl. destruct (calm_counts _ Hl) as (Hc' & Hf' & Hr').
    exists (after s0 w (fetch_events prints ++ l)), (head ++ l).
    split; [done|].
    split; [subst s0 head; unfold after; cbn [world _summaries_cache trace];
            by rewrite <- !app_assoc|].
    split; [done|].
    rewrite !count_app, Hc, Hf, Hc', Hf'.
    split; [done|]. split; [by apply Forall_app|]. split; [done|]. by intros e [=]. }
  destruct r0 as [articles|e].
  2:{ exists (Raise e). rewrite <- (app_nil_r (fetch_events prints)).
      apply Hdone. constructor. }
  destruct (truthy articles); cbn [negb].
  2:{ exists (Ok tt).
      destruct (Hdone (Ok tt) w1 [Print (py "No articles found.")]
                  ltac:(by repeat constructor)) as (s' & added & E & Hall).
      exists s', added. split; [|exact Hall]. rewrite <- E.
      unfold after. cbn [world _summaries_cache trace]. by rewrite <- app_assoc. }
  destruct (py_iter articles) as [items|e].
  2:{ exists (Raise e). rewrite <- (app_nil_r (fetch_events prints)).
      apply Hdone. constructor. }
  destruct (main_loop_calm self items (after s0 w1 (fetch_events prints)))
    as (r & w2 & added & El & Hadded).
  rewrite El, after_after. exists r. by apply Hdone.
Qed.

(** X20. When the summarizer is built and the news are not to be had,
    [main] prints the error of [fetch_news] and 'No articles found.' and
    stops; one request was sent. *)
Theorem main_without_news (self : NewsSummarizer) (s : State W) (w : W) :
  NewsSummarizer_init = Ok self →
  news_unavailable self (world s) w →
  ∃ line,
    main s =
      (Ok tt,
       after s w ([Print (py "Fetching news articles...")]
                  ++ fetch_events [Print line]
                  ++ [Print (py "No articles found.")])).
Proof.
  intros Hinit Hnews. unfold main. unfold_run. rewrite Hinit.
  match goal with |- context [fetch_news _ ?st] => set (s0 := st) end.
  destruct (fetch_news_unavailable self s0 w Hnews) as (line & Hfetch).
  rewrite (news_events_init self _ Hinit) in Hfetch.
  exists line. rewrite Hfetch. cbn [truthy negb]. subst s0.
  finish_run. unfold fetch_events. cbn [app].
  rewrite <- ?app_assoc. reflexivity.
Qed.

End ScriptFacts.

(* ===================================================================== *)
(** ** Runs in the scripted world *)
(* ===================================================================== *)

Example one_article_summarized :
  fst (get_summaries (start one_article_world))
  = Ok {| body := py "[{summary:X,error:null,url:http://x,title:T,source:N/A,published:N/A}]";
          status := 200 |}.
Proof. vm_compute. reflexivity. Qed.

Example null_title_is_shown_as_null :
  ∃ record s',
    summarize_article scripted_summarizer
      (VDict (<[py "title" := VNone]> ∅)) (start one_article_world)
    = (Ok (VDict record), s')
    ∧ record !! py "title" = Some VNone
    ∧ record !! py "source" = Some (VStr (py "N/A")).
Proof. eexists _, _. split; [reflexivity|]. split; vm_compute; reflexivity. Qed.

(** C6. The news API answers 200 with a JSON array: [data.get] raises
    [AttributeError], [fetch_news] does not catch it, and the handler
    raises instead of answering. *)
Theorem array_answer_reaches_the_http_layer :
  fst (fetch_news scripted_summarizer (start array_answer_world))
  = Raise (AttributeError (py "object has no attribute 'get'"))
  ∧ fst (get_summaries (start array_answer_world))
    = Raise (AttributeError (py "object has no attribute 'get'")).
Proof. split; vm_compute; reflexivity. Qed.

(** C7, as the specification words it, fails: two tabs in a row come out
    of the cleaning as they went in. *)
Lemma tabs_are_not_collapsed :
  ∃ s',
    extract_content scripted_summarizer (VStr (py "http://x")) (start tab_world)
    = (Ok [97; TAB; TAB; 98], s')
    ∧ has_adjacent isspace [97; TAB; TAB; 98] = true.
Proof. eexists. split; vm_compute; reflexivity. Qed.

Lemma extracted_text_is_cleaned_witness :
  ∃ content,
    extract_content scripted_summarizer (VStr (py "http://x")) (start page_world)
    = (Ok content,
       after (start page_world) (snd (script_get page_world))
         [Call_extract_content (VStr (py "http://x"));
          Outbound_get (VStr (py "http://x")) ∅ page_headers])
    ∧ content = clean_text (document_text_without [py "script"; py "style"; py "a"]
                  [Tag (py "html")
                     [Tag (py "script") [NavigableString (py "var x = 1;")];
                      Tag (py "p") [NavigableString page_text];
                      Tag (py "a") [NavigableString (py "read more")]]])
    ∧ has_adjacent is_space_char content = false
    ∧ existsb is_linebreak content = false
    ∧ starts_with_space content = false
    ∧ ends_with_space content = false.
Proof.
  apply (extracted_text_is_cleaned scripted_summarizer (VStr (py "http://x"))
           (start page_world)
           {| status_code := 200; text := page_text;
              json := Raise (RequestException (py "JSONDecodeError")) |});
    reflexivity.
Defined.

Example page_world_text :
  fst (extract_content scripted_summarizer (VStr (py "http://x")) (start page_world))
  = Ok (py "Breaking news second line").
Proof. vm_compute. reflexivity. Qed.

Lemma falsy_url_takes_no_url_branch_witness :
  ∃ record,
    summarize_article scripted_summarizer (article (VStr [])) (start one_article_world)
    = (Ok (VDict record), start one_article_world)
    ∧ record !! py "summary" = Some VNone
    ∧ record !! py "error" = Some (VStr (py "No URL available for article."))
    ∧ record !! py "url" = Some (VStr []).
Proof.
  apply (falsy_url_takes_no_url_branch scripted_summarizer (article_dict (VStr []))
           (VStr []) (start one_article_world)).
  - vm_compute. reflexivity.
  - reflexivity.
Defined.

Lemma fresh_cache_is_served_witness :
  ∃ stored_data w,
    data (_summaries_cache (warm one_article_world)) = Some stored_data
    ∧ get_summaries (warm one_article_world)
      = (Ok (ok_response stored_data), at_world (warm one_article_world) w)
    ∧ trace (at_world (warm one_article_world) w) = trace (warm one_article_world)
    ∧ fst (get_summaries (warm one_article_world))
      = fst (get_summaries (start one_article_world)).
Proof.
  eexists _, _. split; [vm_compute; reflexivity|].
  destruct (@fresh_cache_is_served Script Script_External (warm one_article_world) 200%float
              (snd (script_time (world (warm one_article_world))))
              _ ltac:(vm_compute; reflexivity) ltac:(vm_compute; reflexivity)
              ltac:(vm_compute; reflexivity))
    as (Hrun & Htrace & _ & Hprev).
  split; [exact Hrun|]. split; [exact Htrace|].
  rewrite Hrun. vm_compute. reflexivity.
Defined.



Lemma empty_fetch_is_not_found_witness :
  get_summaries (start no_news_world)
  = (Ok not_found_response,
     snd (fetch_news scripted_summarizer
            (at_world (start no_news_world) (snd (script_time no_news_world)))))
  ∧ _summaries_cache (snd (get_summaries (start no_news_world))) = initial_cache.
Proof.
  destruct (@empty_fetch_is_not_found Script Script_External scripted_summarizer
              (start no_news_world) 100%float
              (snd (script_time no_news_world))
              (snd (fetch_news scripted_summarizer
                      (at_world (start no_news_world) (snd (script_time no_news_world)))))
              ltac:(reflexivity) ltac:(reflexivity) ltac:(reflexivity)
              ltac:(vm_compute; reflexivity))
    as (Hrun & _ & _ & Hcache & _).
  split; [exact Hrun|]. rewrite Hrun. exact Hcache.
Defined.

(** C8, as the specification words it, fails: between the two assignments
    the cache holds the timestamp of the second request next to the list of
    the first. *)
Lemma new_timestamp_beside_old_data :
  ∃ c,
    In (CacheWrite c) (trace (snd second_request))
    ∧ timestamp c = timestamp (_summaries_cache (snd second_request))
    ∧ data c = data (_summaries_cache (warm two_refresh_world))
    ∧ PrimFloat.eqb (timestamp (_summaries_cache (warm two_refresh_world)))
        (timestamp (_summaries_cache (snd second_request))) = false
    ∧ data (_summaries_cache (warm two_refresh_world))
      ≠ data (_summaries_cache (snd second_request)).
Proof.
  exists {| timestamp := 50001%float;
            data := data (_summaries_cache (warm two_refresh_world)) |}.
  split.
  { vm_compute. do 14 right. left. reflexivity. }
  split; [vm_compute; reflexivity|]. split; [reflexivity|].
  split; [vm_compute; reflexivity|].
  intros E. vm_compute in E. discriminate E.
Qed.

Lemma unavailable_page_is_no_content_witness :
  ∃ line,
    summarize_article scripted_summarizer (VDict (article_dict url_x))
      (start missing_page_world)
    = (Ok (VDict (summary_record (article_dict url_x) NoContent)),
       after (start missing_page_world) (snd (script_get missing_page_world))
         [Call_extract_content (article_url (article_dict url_x));
          Outbound_get (article_url (article_dict url_x)) ∅ page_headers;
          Print line]).
Proof.
  apply (unavailable_page_is_no_content scripted_summarizer (article_dict url_x)
           (start missing_page_world)).
  - vm_compute. reflexivity.
  - eapply page_status; [vm_compute; reflexivity|reflexivity].
Defined.

Lemma blank_page_is_no_content_witness :
  summarize_article scripted_summarizer (VDict (article_dict url_x))
    (start blank_page_world)
  = (Ok (VDict (summary_record (article_dict url_x) NoContent)),
     after (start blank_page_world) (snd (script_get blank_page_world))
       [Call_extract_content (article_url (article_dict url_x));
        Outbound_get (article_url (article_dict url_x)) ∅ page_headers]).
Proof.
  eapply (blank_page_is_no_content scripted_summarizer (article_dict url_x)
            (start blank_page_world)).
  - vm_compute. reflexivity.
  - vm_compute. reflexivity.
  - reflexivity.
  - reflexivity.
  - vm_compute. reflexivity.
Defined.

Lemma blank_answer_is_no_summary_witness :
  generate_summary scripted_summarizer (py "some text") (start blank_answer_world)
  = (Ok [],
     after (start blank_answer_world) (snd (script_generate blank_answer_world))
       [Call_generate_summary (py "some text");
        Outbound_generate (py "gemini-2.0-flash") (summary_prompt (py "some text"))]).
Proof.
  eapply (blank_answer_is_no_summary scripted_summarizer (py "some text")
            (start blank_answer_world)).
  - reflexivity.
  - reflexivity.
  - vm_compute. reflexivity.
Defined.

Lemma fetch_news_returns_data_witness :
  fetch_news scripted_summarizer (start one_article_world)
  = (Ok (VList [article url_x]),
     after (start one_article_world) (snd (script_get one_article_world))
       (news_events scripted_summarizer [])).
Proof.
  rewrite (@fetch_news_returns_data Script Script_External
             scripted_summarizer (start one_article_world)
             {| status_code := 200; text := [];
                json := Ok (VDict (<[py "data" := VList [article url_x]]> ∅)) |}
             (snd (script_get one_article_world))
             (<[py "data" := VList [article url_x]]> ∅)
             ltac:(reflexivity) ltac:(reflexivity) ltac:(reflexivity)).
  vm_compute. reflexivity.
Defined.

Lemma unavailable_news_is_not_found_witness :
  ∃ line,
    get_summaries (start offline_world) =
      (Ok not_found_response,
       after (at_world (start offline_world) (snd (script_time offline_world)))
         (snd (script_time offline_world)) (fetch_events [Print line]))
    ∧ _summaries_cache
        (after (at_world (start offline_world) (snd (script_time offline_world)))
           (snd (script_time offline_world)) (fetch_events [Print line]))
      = _summaries_cache (start offline_world).
Proof.
  apply (unavailable_news_is_not_found scripted_summarizer (start offline_world)
           100%float).
  - reflexivity.
  - reflexivity.
  - reflexivity.
  - eapply news_raises. reflexivity.
Defined.

Lemma only_ok_answers_change_the_cache_witness :
  _summaries_cache (snd (get_summaries (start array_answer_world))) = initial_cache
  ∧ count is_cache_write (trace (snd (get_summaries (start array_answer_world)))) = 0%nat.
Proof.
  apply (only_ok_answers_change_the_cache (start array_answer_world)
           (fst (get_summaries (start array_answer_world)))).
  - apply surjective_pairing.
  - intros response E. vm_compute in E. discriminate E.
Defined.

Lemma articles_are_always_answered_witness :
  ∃ vs s2 t w,
    pipeline_run scripted_summarizer [article_dict url_x]
      (snd (fetch_news scripted_summarizer
              (at_world (start one_article_world) (snd (script_time one_article_world)))))
      vs s2
    ∧ time_time (world s2) = (t, w)
    ∧ get_summaries (start one_article_world) =
        (Ok (ok_response (records [article_dict url_x] vs)),
         stored_state s2 w t (records [article_dict url_x] vs))
    ∧ length (records [article_dict url_x] vs) = 1%nat.
Proof.
  apply (articles_are_always_answered scripted_summarizer (start one_article_world)
           100%float (snd (script_time one_article_world)) [article_dict url_x]).
  - reflexivity.
  - reflexivity.
  - reflexivity.
  - vm_compute. reflexivity.
  - discriminate.
Defined.

Lemma non_dict_article_fails_the_request_witness :
  ∃ vs s2 msg,
    pipeline_run scripted_summarizer [article_dict url_x]
      (snd (fetch_news scripted_summarizer
              (at_world (start string_article_world)
                 (snd (script_time string_article_world)))))
      vs s2
    ∧ get_summaries (start string_article_world) = (Raise (AttributeError msg), s2)
    ∧ _summaries_cache s2 = _summaries_cache (start string_article_world).
Proof.
  apply (non_dict_article_fails_the_request scripted_summarizer
           (start string_article_world) 100%float
           (snd (script_time string_article_world)) [article_dict url_x]
           (VStr (py "oops")) []).
  - reflexivity.
  - reflexivity.
  - reflexivity.
  - vm_compute. reflexivity.
  - discriminate.
Defined.

Lemma non_list_data_fails_the_request_witness :
  ∃ e,
    get_summaries (start string_data_world)
    = (Raise e,
       snd (fetch_news scripted_summarizer
              (at_world (start string_data_world) (snd (script_time string_data_world)))))
    ∧ ((∃ msg, e = AttributeError msg) ∨ (∃ msg, e = TypeError msg))
    ∧ _summaries_cache
        (snd (fetch_news scripted_summarizer
                (at_world (start string_data_world) (snd (script_time string_data_world)))))
      = _summaries_cache (start string_data_world).
Proof.
  apply (non_list_data_fails_the_request scripted_summarizer
           (start string_data_world) 100%float
           (snd (script_time string_data_world)) (VStr (py "abc"))).
  - reflexivity.
  - reflexivity.
  - reflexivity.
  - vm_compute. reflexivity.
  - reflexivity.
  - discriminate.
Defined.


Lemma main_without_news_witness :
  ∃ line,
    main (start offline_world) =
      (Ok tt,
       after (start offline_world) offline_world
         ([Print (py "Fetching news articles...")]
          ++ fetch_events [Print line]
          ++ [Print (py "No articles found.")])).
Proof.
  apply (main_without_news scripted_summarizer (start offline_world) offline_world).
  - reflexivity.
  - eapply news_raises. reflexivity.
Defined.

Lemma summarized_article_witness :
  summarize_article scripted_summarizer (VDict (article_dict url_x))
    (start padded_answer_world)
  = (Ok (VDict (summary_record (article_dict url_x) (Summarized (py "X")))),
     after (start padded_answer_world)
       {| clock := []; http := []; gemini := [] |}
       [Call_extract_content url_x;
        Outbound_get url_x ∅ page_headers;
        Call_generate_summary (py "some text");
        Outbound_generate GEMINI_MODEL (summary_prompt (py "some text"))]).
Proof.
  rewrite (@summarized_article Script Script_External scripted_summarizer
             (article_dict url_x) (start padded_answer_world)
             {| status_code := 200; text := py "  some   text ";
                json := Raise (RequestException (py "JSONDecodeError")) |}
             {| clock := []; http := []; gemini := [said (py " X ")] |}
             [Tag (py "html")
                [Tag (py "script") [NavigableString (py "var x = 1;")];
                 Tag (py "p") [NavigableString (py "  some   text ")];
                 Tag (py "a") [NavigableString (py "read more")]]]
             {| response_text := Some (py " X ") |}
             {| clock := []; http := []; gemini := [] |}
             (py " X ")
             ltac:(vm_compute; reflexivity) ltac:(vm_compute; reflexivity)
             ltac:(reflexivity) ltac:(reflexivity)
             ltac:(vm_compute; discriminate) ltac:(vm_compute; reflexivity)
             ltac:(reflexivity) ltac:(vm_compute; discriminate)).
  vm_compute. reflexivity.
Defined.


Example main_prints_the_summary :
  List.filter is_print (trace (snd (main (start one_article_world))))
  = [Print (py "Fetching news articles...");
     Print RULE;
     Print (article_text (py "T") (py "N/A") (py "http://x") (py "N/A"));
     Print (py "Extracting content...");
     Print (py "Generating summary...");
     Print (py "Summary: X")].
Proof. vm_compute. reflexivity. Qed.
